(** * Hotel reservation system: a shallow embedding of [reservation_system.py]

    The Python module keeps three JSON documents on disk ([hotels.json],
    [customers.json], [reservations.json]).  Every public operation loads a
    whole document, changes the dictionary in memory and writes the whole
    document back; failures are reported by printing a line and returning
    [False].

    The embedding follows that shape: a [world] holds the content of the
    three files and the lines printed so far, and every Python function is a
    computation in a state-and-exception monad [M] over the world.

    Scope of the model.  Identifiers are the Python values the tests pass
    (an [int] or a [str]); they reach the dictionaries only through [str].
    A well-formed document is a dictionary from string keys to records whose
    fields have the types the module writes: strings, and a Python [int]
    (an unbounded integer, [Z]) for ["rooms"].  A file that is not there is
    [Missing]; a file that holds UTF-8 text which [json.load] rejects with
    [JSONDecodeError] is [Corrupt]; a file that holds such a dictionary is a
    [Doc].  The worlds of this model are therefore the directories in which
    every file that exists is UTF-8 text.

    What [load_data] does with the bytes of an arbitrary file, text or not,
    is modelled separately in [Disk]: there a file is a list of bytes, the
    text-mode read decodes it as UTF-8 and can raise [UnicodeDecodeError],
    which [load_data] does not catch.  [load_data_refines_disk] shows that
    the two agree on every file that is text.

    The [Hotel] constructor is not modelled; no operation uses it. *)

From Stdlib Require Import ZArith NArith String DecimalString.
From Stdlib Require DecimalPos DecimalZ.
From Stdlib.Strings Require Byte.
From stdpp Require Import base option gmap strings.

Local Open Scope string_scope.

(** ** Python values used as identifiers *)

Inductive pyval :=
  | PyInt (n : Z)
  | PyStr (s : string).

(** [str(x)]: the decimal numeral of an [int], a [str] unchanged. *)
Definition str (v : pyval) : string :=
  match v with
  | PyInt n => NilZero.string_of_int (Z.to_int n)
  | PyStr s => s
  end.

(** ** Records stored in the documents *)

Module HotelRec.
Record t := mk { name : string; location : string; rooms : Z }.
Definition set_name (v : string) (r : t) : t := mk v (location r) (rooms r).
Definition set_location (v : string) (r : t) : t := mk (name r) v (rooms r).
Definition set_rooms (v : Z) (r : t) : t := mk (name r) (location r) v.
End HotelRec.

Module CustomerRec.
Record t := mk { name : string; email : string }.
Definition set_name (v : string) (r : t) : t := mk v (email r).
Definition set_email (v : string) (r : t) : t := mk (name r) v.
End CustomerRec.

Module ReservationRec.
Record t := mk { customer_id : string; hotel_id : string }.
End ReservationRec.

(** ** Files and the world *)

(** What a file of UTF-8 text holds: nothing (there is no such file), text
    [raw] that [json.load] rejects with [JSONDecodeError], or the document
    [d] that [json.load] returns. *)
Inductive content (A : Type) :=
  | Missing
  | Corrupt (raw : string)
  | Doc (d : A).
Arguments Missing {A}.
Arguments Corrupt {A} raw.
Arguments Doc {A} d.

Record world := World {
  hotels_json : content (gmap string HotelRec.t);
  customers_json : content (gmap string CustomerRec.t);
  reservations_json : content (gmap string ReservationRec.t);
  stdout : list string
}.

(** A file name together with the place in the world it denotes. *)
Record file (A : Type) := File {
  file_name : string;
  fread : world -> content A;
  fwrite : content A -> world -> world
}.
Arguments file_name {A} f.
Arguments fread {A} f w.
Arguments fwrite {A} f c w.

(** The dictionary a document holds; nothing for a missing or corrupt file. *)
Definition store_of {A} `{Empty A} (c : content A) : A :=
  match c with
  | Doc d => d
  | Missing | Corrupt _ => ∅
  end.

(** ** The monad: state (the world) and Python exceptions *)

Inductive exn :=
  | JSONDecodeError
  | UnicodeDecodeError
  | FileNotFoundError
  | KeyError.

Definition M (A : Type) : Type := world -> (exn + A) * world.

#[global] Instance M_ret : MRet M := fun A a w => (inr a, w).

#[global] Instance M_bind : MBind M := fun A B k m w =>
  match m w with
  | (inr a, w') => k a w'
  | (inl e, w') => (inl e, w')
  end.

Definition raise {A} (e : exn) : M A := fun w => (inl e, w).

(** [try: body / except e: handler], for the one exception [catches] names. *)
Definition try_except {A} (body : M A) (catches : exn -> bool) (handler : M A) : M A :=
  fun w =>
    match body w with
    | (inl e, w') => if catches e then handler w' else (inl e, w')
    | (inr a, w') => (inr a, w')
    end.

Definition is_JSONDecodeError (e : exn) : bool :=
  match e with JSONDecodeError => true | _ => false end.

Definition print (line : string) : M unit := fun w =>
  (inr tt, World (hotels_json w) (customers_json w) (reservations_json w)
                 (stdout w ++ [line])).

(** [os.path.exists(filename)] *)
Definition os_path_exists {A} (f : file A) : M bool := fun w =>
  (inr (match fread f w with Missing => false | _ => true end), w).

(** [with open(filename, 'r') as file: json.load(file)], for a file of
    UTF-8 text; [Disk.json_load] has the general case. *)
Definition json_load {A} (f : file A) : M A := fun w =>
  match fread f w with
  | Missing => (inl FileNotFoundError, w)
  | Corrupt _ => (inl JSONDecodeError, w)
  | Doc d => (inr d, w)
  end.

(** [with open(filename, 'w') as file: json.dump(data, file)] *)
Definition json_dump {A} (f : file A) (data : A) : M unit := fun w =>
  (inr tt, fwrite f (Doc data) w).

(** ** Dictionary operations that can raise *)

(** [key in data] *)
Definition py_in {V} (key : string) (data : gmap string V) : bool :=
  bool_decide (is_Some (data !! key)).

(** [data[key]] *)
Definition getitem {V} (data : gmap string V) (key : string) : M V :=
  match data !! key with
  | Some v => mret v
  | None => raise KeyError
  end.

(** [del data[key]] *)
Definition delitem {V} (data : gmap string V) (key : string) : M (gmap string V) :=
  match data !! key with
  | Some _ => mret (delete key data)
  | None => raise KeyError
  end.

(** ** Persistence *)

Definition load_data {A} `{Empty A} (filename : file A) : M A :=
  found ← os_path_exists filename;
  if negb found then mret ∅
  else
    try_except (json_load filename) is_JSONDecodeError
      (print ("Error: Datos JSON inválidos en " +:+ file_name filename
              +:+ ". Retornando vacío.");;
       mret ∅).

Definition save_data {A} (filename : file A) (data : A) : M unit :=
  json_dump filename data.

(** ** [load_data] on the bytes of a file *)

Module Disk.

(** [lo <= b <= hi] *)
Definition between (lo hi : N) (b : Byte.byte) : bool :=
  ((lo <=? Byte.to_N b) && (Byte.to_N b <=? hi))%N.

(** A continuation byte, [0x80 .. 0xBF]. *)
Definition cont (b : Byte.byte) : bool := between 128 191 b.

(** Well-formed UTF-8, as the strict ['utf-8'] codec accepts it: no stray or
    missing continuation byte, no overlong form, no surrogate, nothing above
    U+10FFFF. *)
Fixpoint utf8_valid (bytes : list Byte.byte) : bool :=
  match bytes with
  | [] => true
  | b0 :: rest =>
      if between 0 127 b0 then utf8_valid rest
      else if between 194 223 b0 then
        match rest with
        | b1 :: rest' => cont b1 && utf8_valid rest'
        | _ => false
        end
      else if between 224 239 b0 then
        match rest with
        | b1 :: b2 :: rest' =>
            (if between 224 224 b0 then between 160 191 b1
             else if between 237 237 b0 then between 128 159 b1
             else cont b1)
            && cont b2 && utf8_valid rest'
        | _ => false
        end
      else if between 240 244 b0 then
        match rest with
        | b1 :: b2 :: b3 :: rest' =>
            (if between 240 240 b0 then between 144 191 b1
             else if between 244 244 b0 then between 128 143 b1
             else cont b1)
            && cont b2 && cont b3 && utf8_valid rest'
        | _ => false
        end
      else false
  end.

(** [file.read()] on a file opened with [encoding='utf-8']. *)
Definition read_text (bytes : list Byte.byte) : exn + string :=
  if utf8_valid bytes then inr (string_of_list_byte bytes)
  else inl UnicodeDecodeError.

Section Load.
Context {A : Type} `{Empty A}.

(** [json.loads] on text: the document, or [None] for [JSONDecodeError]. *)
Variable json_loads : string -> option A.

(** [os.path.exists(filename)]; a file is [None] when it is not there. *)
Definition os_path_exists (file : option (list Byte.byte)) : bool :=
  match file with
  | Some _ => true
  | None => false
  end.

(** [with open(filename, 'r', encoding='utf-8') as file: json.load(file)] *)
Definition json_load (file : option (list Byte.byte)) : exn + A :=
  match file with
  | None => inl FileNotFoundError
  | Some bytes =>
      match read_text bytes with
      | inl e => inl e
      | inr text =>
          match json_loads text with
          | Some data => inr data
          | None => inl JSONDecodeError
          end
      end
  end.

(** [load_data(filename)]: the value returned or the exception raised, and
    the lines printed. *)
Definition load_data (filename : string) (file : option (list Byte.byte))
  : (exn + A) * list string :=
  if negb (os_path_exists file) then (inr ∅, [])
  else
    match json_load file with
    | inr data => (inr data, [])
    | inl e =>
        if is_JSONDecodeError e then
          (inr ∅,
           ["Error: Datos JSON inválidos en " +:+ filename
            +:+ ". Retornando vacío."])
        else (inl e, [])
    end.

(** The [content] a file of bytes stands for; [None] when the bytes are not
    UTF-8 text. *)
Definition classify (file : option (list Byte.byte)) : option (content A) :=
  match file with
  | None => Some Missing
  | Some bytes =>
      match read_text bytes with
      | inl _ => None
      | inr text =>
          match json_loads text with
          | Some data => Some (Doc data)
          | None => Some (Corrupt text)
          end
      end
  end.
End Load.
End Disk.

(** ** class Hotel *)

Module Hotel.
Import HotelRec.

Definition FILE_NAME : file (gmap string HotelRec.t) :=
  File _ "hotels.json" hotels_json
    (fun c w => World c (customers_json w) (reservations_json w) (stdout w)).

Definition create_hotel (hotel_id : pyval) (name location : string) (rooms : Z)
  : M bool :=
  data ← load_data FILE_NAME;
  if py_in (str hotel_id) data then
    print ("Error: El ID del hotel " +:+ str hotel_id +:+ " ya existe.");;
    mret false
  else
    let data := <[str hotel_id := HotelRec.mk name location rooms]> data in
    save_data FILE_NAME data;;
    mret true.

Definition delete_hotel (hotel_id : pyval) : M bool :=
  data ← load_data FILE_NAME;
  if py_in (str hotel_id) data then
    data ← delitem data (str hotel_id);
    save_data FILE_NAME data;;
    mret true
  else
    print ("Error: Hotel con ID " +:+ str hotel_id +:+ " no encontrado.");;
    mret false.

(** The three guarded assignments of [modify_hotel]; [None] is an argument
    left at its default. *)
Definition assign_fields (key : string) (name location : option string)
    (rooms : option Z) (data : gmap string HotelRec.t) : gmap string HotelRec.t :=
  let data := match name with
              | Some v => alter (set_name v) key data
              | None => data
              end in
  let data := match location with
              | Some v => alter (set_location v) key data
              | None => data
              end in
  match rooms with
  | Some v => alter (set_rooms v) key data
  | None => data
  end.

Definition modify_hotel (hotel_id : pyval) (name location : option string)
    (rooms : option Z) : M bool :=
  data ← load_data FILE_NAME;
  if py_in (str hotel_id) data then
    let data := assign_fields (str hotel_id) name location rooms data in
    save_data FILE_NAME data;;
    mret true
  else
    print ("Error: Hotel con ID " +:+ str hotel_id +:+ " no encontrado.");;
    mret false.

Definition reserve_room (hotel_id : pyval) : M bool :=
  data ← load_data FILE_NAME;
  if py_in (str hotel_id) data then
    hotel ← getitem data (str hotel_id);
    if bool_decide (0 < rooms hotel)%Z then
      let data := alter (fun h => set_rooms (rooms h - 1)%Z h) (str hotel_id) data in
      save_data FILE_NAME data;;
      mret true
    else
      print ("Error: No hay habitaciones disponibles en " +:+ str hotel_id +:+ ".");;
      mret false
  else
    print ("Error: Hotel con ID " +:+ str hotel_id +:+ " no encontrado.");;
    mret false.

Definition cancel_room (hotel_id : pyval) : M bool :=
  data ← load_data FILE_NAME;
  if py_in (str hotel_id) data then
    let data := alter (fun h => set_rooms (rooms h + 1)%Z h) (str hotel_id) data in
    save_data FILE_NAME data;;
    mret true
  else
    print ("Error: Hotel con ID " +:+ str hotel_id +:+ " no encontrado.");;
    mret false.
(** [display_hotel].  [repr] stands for the text Python shows for the stored
    dictionary in [f"{hotel}"]; the record [data.get] finds is a dictionary
    with three keys, hence true in the [if]. *)
Definition display_hotel (repr : HotelRec.t -> string) (hotel_id : pyval)
  : M (option HotelRec.t) :=
  data ← load_data FILE_NAME;
  match data !! str hotel_id with
  | Some hotel =>
      print ("Hotel " +:+ str hotel_id +:+ ": " +:+ repr hotel);;
      mret (Some hotel)
  | None =>
      print ("Error: Hotel con ID " +:+ str hotel_id +:+ " no encontrado.");;
      mret None
  end.
End Hotel.

(** ** class Customer *)

Module Customer.
Import CustomerRec.

Definition FILE_NAME : file (gmap string CustomerRec.t) :=
  File _ "customers.json" customers_json
    (fun c w => World (hotels_json w) c (reservations_json w) (stdout w)).

Definition create_customer (customer_id : pyval) (name email : string) : M bool :=
  data ← load_data FILE_NAME;
  if py_in (str customer_id) data then
    print ("Error: El ID del cliente " +:+ str customer_id +:+ " ya existe.");;
    mret false
  else
    let data := <[str customer_id := CustomerRec.mk name email]> data in
    save_data FILE_NAME data;;
    mret true.

Definition delete_customer (customer_id : pyval) : M bool :=
  data ← load_data FILE_NAME;
  if py_in (str customer_id) data then
    data ← delitem data (str customer_id);
    save_data FILE_NAME data;;
    mret true
  else
    print ("Error: Cliente con ID " +:+ str customer_id +:+ " no encontrado.");;
    mret false.

Definition assign_fields (key : string) (name email : option string)
    (data : gmap string CustomerRec.t) : gmap string CustomerRec.t :=
  let data := match name with
              | Some v => alter (set_name v) key data
              | None => data
              end in
  match email with
  | Some v => alter (set_email v) key data
  | None => data
  end.

Definition modify_customer (customer_id : pyval) (name email : option string)
  : M bool :=
  data ← load_data FILE_NAME;
  if py_in (str customer_id) data then
    let data := assign_fields (str customer_id) name email data in
    save_data FILE_NAME data;;
    mret true
  else
    print ("Error: Cliente con ID " +:+ str customer_id +:+ " no encontrado.");;
    mret false.
(** [display_customer]; [repr] as for [Hotel.display_hotel]. *)
Definition display_customer (repr : CustomerRec.t -> string) (customer_id : pyval)
  : M (option CustomerRec.t) :=
  data ← load_data FILE_NAME;
  match data !! str customer_id with
  | Some customer =>
      print ("Cliente " +:+ str customer_id +:+ ": " +:+ repr customer);;
      mret (Some customer)
  | None =>
      print ("Error: Cliente con ID " +:+ str customer_id +:+ " no encontrado.");;
      mret None
  end.
End Customer.

(** ** class Reservation *)

Module Reservation.
Import ReservationRec.

Definition FILE_NAME : file (gmap string ReservationRec.t) :=
  File _ "reservations.json" reservations_json
    (fun c w => World (hotels_json w) (customers_json w) c (stdout w)).

Definition create_reservation (reservation_id customer_id hotel_id : pyval)
  : M bool :=
  customer_data ← load_data Customer.FILE_NAME;
  hotel_data ← load_data Hotel.FILE_NAME;
  res_data ← load_data FILE_NAME;
  if py_in (str reservation_id) res_data then
    print ("Error: La reservación " +:+ str reservation_id +:+ " ya existe.");;
    mret false
  else if negb (py_in (str customer_id) customer_data) then
    print ("Error: El cliente " +:+ str customer_id +:+ " no existe.");;
    mret false
  else if negb (py_in (str hotel_id) hotel_data) then
    print ("Error: El hotel " +:+ str hotel_id +:+ " no existe.");;
    mret false
  else
    reserved ← Hotel.reserve_room hotel_id;
    if (reserved : bool) then
      let res_data :=
        <[str reservation_id :=
            ReservationRec.mk (str customer_id) (str hotel_id)]> res_data in
      save_data FILE_NAME res_data;;
      mret true
    else mret false.

Definition cancel_reservation (reservation_id : pyval) : M bool :=
  res_data ← load_data FILE_NAME;
  if py_in (str reservation_id) res_data then
    reservation ← getitem res_data (str reservation_id);
    let hotel_id := hotel_id reservation in
    _ ← Hotel.cancel_room (PyStr hotel_id);
    res_data ← delitem res_data (str reservation_id);
    save_data FILE_NAME res_data;;
    mret true
  else
    print ("Error: Reservación " +:+ str reservation_id +:+ " no encontrada.");;
    mret false.
End Reservation.

(** ** Reading the stores *)

Definition hotel_store (w : world) : gmap string HotelRec.t :=
  store_of (hotels_json w).
Definition customer_store (w : world) : gmap string CustomerRec.t :=
  store_of (customers_json w).
Definition reservation_store (w : world) : gmap string ReservationRec.t :=
  store_of (reservations_json w).

(** The room count of a hotel, when the hotel is in the store. *)
Definition room_count (w : world) (key : string) : option Z :=
  HotelRec.rooms <$> hotel_store w !! key.

(** A clean working directory, as the tests' [setUp] leaves it. *)
Definition fresh_world : world := World Missing Missing Missing [].

(** Run a sequence of calls for their final world. *)
Definition exec {A} (m : M A) (w : world) : world := snd (m w).
Definition result {A} (m : M A) (w : world) : exn + A := fst (m w).

(** ** What a call leaves on standard output *)

(** The line [load_data] prints for a file that does not parse. *)
Definition diagnostic {A} (f : file A) : string :=
  "Error: Datos JSON inválidos en " +:+ file_name f +:+ ". Retornando vacío.".

(** The lines one [load_data] of [f] prints in world [w]. *)
Definition load_log {A} (f : file A) (w : world) : list string :=
  match fread f w with
  | Corrupt _ => [diagnostic f]
  | Missing | Doc _ => []
  end.

(** The world after printing [lines]: the files stay as they are. *)
Definition say (lines : list string) (w : world) : world :=
  World (hotels_json w) (customers_json w) (reservations_json w)
        (stdout w ++ lines).

(** What the three loads at the top of [create_reservation] print. *)
Definition create_log (w : world) : list string :=
  load_log Customer.FILE_NAME w ++ load_log Hotel.FILE_NAME w
    ++ load_log Reservation.FILE_NAME w.

(** Two worlds with the same three files (their output may differ). *)
Definition same_files (w w' : world) : Prop :=
  hotels_json w' = hotels_json w /\
  customers_json w' = customers_json w /\
  reservations_json w' = reservations_json w.

(** The invariant of the data model: no stored room count is negative. *)
Definition rooms_nonneg (w : world) : Prop :=
  map_Forall (fun _ h => (0 <= HotelRec.rooms h)%Z) (hotel_store w).

(** ** Sequences of calls and room accounting *)

(** [n] calls of [m], one after the other; [True] when every call returned
    [True]. *)
Fixpoint repeat_call (n : nat) (m : M bool) : M bool :=
  match n with
  | O => mret true
  | S n' =>
      b ← m;
      bs ← repeat_call n' m;
      mret (b && bs)
  end.

(** The number of reservation records that name hotel [key]. *)
Definition booked (w : world) (key : string) : nat :=
  size (filter (fun kv => ReservationRec.hotel_id (snd kv) = key)
               (reservation_store w)).

(** Free rooms plus booked rooms of a hotel that is in the store. *)
Definition capacity (w : world) (key : string) : option Z :=
  (fun h => (HotelRec.rooms h + Z.of_nat (booked w key))%Z)
    <$> hotel_store w !! key.

(** No file holds text that fails to parse. *)
Definition no_corrupt_file (w : world) : Prop :=
  load_log Hotel.FILE_NAME w = [] /\ load_log Customer.FILE_NAME w = []
  /\ load_log Reservation.FILE_NAME w = [].

(** A call that returns [True] prints nothing, and one that returns [False]
    prints exactly one line. *)
Definition quiet_or_one_line (m : M bool) (w : world) : Prop :=
  (result m w = inr true -> stdout (exec m w) = stdout w)
  /\ (result m w = inr false ->
      exists line, stdout (exec m w) = (stdout w ++ [line])%list).

(** The argument a second [modify] call leaves in force: its own value when
    it supplies one, otherwise the value of the first call. *)
Definition later_wins {A} (second first : option A) : option A :=
  match second with
  | Some v => Some v
  | None => first
  end.

(** ** Worlds the examples start from *)

(** The set-up of the reservation tests: hotel 1 with ten rooms and
    customer 1. *)
Definition hilton_world : world :=
  exec (Customer.create_customer (PyInt 1) "John" "john@test.com")
    (exec (Hotel.create_hotel (PyInt 1) "Hilton" "NY" 10) fresh_world).

(** A hotel created with a negative number of rooms. *)
Definition overdrawn_world : world :=
  exec (Hotel.create_hotel (PyInt 1) "Hilton" "NY" (-1)) fresh_world.

(** Hotel 1 is full and customer 1 exists. *)
Definition full_world : world :=
  exec (Customer.create_customer (PyInt 1) "John" "john@test.com")
    (exec (Hotel.create_hotel (PyInt 1) "Hilton" "NY" 0) fresh_world).

(** Reservation 1 outlives its hotel: the hotel is deleted after booking. *)
Definition dangling_world : world :=
  exec (Hotel.delete_hotel (PyInt 1))
    (exec (Reservation.create_reservation (PyInt 1) (PyInt 1) (PyInt 1))
       hilton_world).

Example str_int : str (PyInt 1) = "1" /\ str (PyInt (-12)) = "-12" /\ str (PyInt 0) = "0".
Proof. repeat split. Qed.

Example scenario_test :
  let w1 := exec (Hotel.create_hotel (PyInt 1) "Hilton" "NY" 1) fresh_world in
  let w2 := exec (Customer.create_customer (PyInt 1) "John" "john@test.com") w1 in
  let r3 := Reservation.create_reservation (PyInt 1) (PyInt 1) (PyInt 1) w2 in
  let r4 := Reservation.create_reservation (PyInt 2) (PyInt 1) (PyInt 1) (snd r3) in
  let r5 := Reservation.cancel_reservation (PyInt 1) (snd r4) in
  let r6 := Reservation.cancel_reservation (PyInt 1) (snd r5) in
  fst r3 = inr true /\ room_count (snd r3) "1" = Some 0%Z /\
  fst r4 = inr false /\ room_count (snd r4) "1" = Some 0%Z /\
  fst r5 = inr true /\ room_count (snd r5) "1" = Some 1%Z /\
  fst r6 = inr false /\
  stdout (snd r6) = ["Error: No hay habitaciones disponibles en 1.";
                     "Error: Reservación 1 no encontrada."].
Proof. vm_compute. repeat split. Qed.

(** * Running the monad *)

Section Run.
Context {A B : Type}.

Lemma bind_run (m : M A) (k : A -> M B) (w : world) :
  (m ≫= k) w =
    match m w with
    | (inr a, w') => k a w'
    | (inl e, w') => (inl e, w')
    end.
Proof. reflexivity. Qed.

Lemma if_run (b : bool) (m1 m2 : M A) (w : world) :
  (if b then m1 else m2) w = if b then m1 w else m2 w.
Proof. by destruct b. Qed.

Lemma ret_run (a : A) (w : world) : (mret a : M A) w = (inr a, w).
Proof. reflexivity. Qed.

Lemma save_data_run (f : file A) (d : A) (w : world) :
  save_data f d w = (inr tt, fwrite f (Doc d) w).
Proof. reflexivity. Qed.

Lemma load_data_run `{Empty A} (f : file A) (w : world) :
  load_data f w = (inr (store_of (fread f w)), say (load_log f w) w).
Proof.
  unfold load_data, os_path_exists, try_except, json_load, load_log, say, diagnostic.
  unfold mbind, M_bind. destruct w as [hs cs rs out].
  destruct (fread f _) eqn:E; simpl; rewrite ?E, ?app_nil_r; reflexivity.
Qed.
End Run.

Lemma print_run (line : string) (w : world) : print line w = (inr tt, say [line] w).
Proof. reflexivity. Qed.

Lemma say_say (l1 l2 : list string) (w : world) :
  say l2 (say l1 w) = say (l1 ++ l2) w.
Proof. unfold say; simpl. by rewrite app_assoc. Qed.

Lemma say_nil (w : world) : say [] w = w.
Proof. destruct w; unfold say; simpl. by rewrite app_nil_r. Qed.

Lemma same_files_say (l : list string) (w : world) : same_files w (say l w).
Proof. by repeat split. Qed.

Lemma py_in_true {V} (k : string) (d : gmap string V) (v : V) :
  d !! k = Some v -> py_in k d = true.
Proof. intros E. unfold py_in. rewrite E. apply bool_decide_eq_true_2. eauto. Qed.

Lemma py_in_false {V} (k : string) (d : gmap string V) :
  d !! k = None -> py_in k d = false.
Proof.
  intros E. unfold py_in. rewrite E. apply bool_decide_eq_false_2.
  by intros [? ?].
Qed.

(** A store with an entry comes from a well-formed document. *)
Lemma store_of_lookup_Doc {V} (c : content (gmap string V)) (k : string) (v : V) :
  store_of c !! k = Some v -> c = Doc (store_of c).
Proof. destruct c; simpl; rewrite ?lookup_empty; by intros. Qed.

Ltac run :=
  repeat first
    [ rewrite bind_run | rewrite if_run | rewrite load_data_run
    | rewrite print_run | rewrite ret_run | rewrite save_data_run
    | rewrite say_say ].

(** * The operations in closed form *)

Section HotelRuns.
Import HotelRec.
Variables (w : world) (hotel_id : pyval).
Let key := str hotel_id.
Let log := load_log Hotel.FILE_NAME w.

Lemma create_hotel_run (n l : string) (r : Z) :
  Hotel.create_hotel hotel_id n l r w =
    match hotel_store w !! key with
    | Some _ =>
        (inr false,
         say (log ++ ["Error: El ID del hotel " +:+ key +:+ " ya existe."]) w)
    | None =>
        (inr true,
         World (Doc (<[key := HotelRec.mk n l r]> (hotel_store w)))
               (customers_json w) (reservations_json w) (stdout w ++ log))
    end.
Proof.
  unfold Hotel.create_hotel. run. fold key. change (store_of _) with (hotel_store w).
  destruct (hotel_store w !! key) eqn:E.
  - by rewrite (py_in_true _ _ _ E).
  - by rewrite (py_in_false _ _ E).
Qed.

Lemma modify_hotel_run (n l : option string) (r : option Z) :
  Hotel.modify_hotel hotel_id n l r w =
    match hotel_store w !! key with
    | Some _ =>
        (inr true,
         World (Doc (Hotel.assign_fields key n l r (hotel_store w)))
               (customers_json w) (reservations_json w) (stdout w ++ log))
    | None =>
        (inr false,
         say (log ++ ["Error: Hotel con ID " +:+ key +:+ " no encontrado."]) w)
    end.
Proof.
  unfold Hotel.modify_hotel. run. fold key. change (store_of _) with (hotel_store w).
  destruct (hotel_store w !! key) eqn:E.
  - by rewrite (py_in_true _ _ _ E).
  - by rewrite (py_in_false _ _ E).
Qed.

Lemma reserve_room_run :
  Hotel.reserve_room hotel_id w =
    match hotel_store w !! key with
    | Some h =>
        if bool_decide (0 < rooms h)%Z then
          (inr true,
           World (Doc (alter (fun h => set_rooms (rooms h - 1)%Z h) key
                             (hotel_store w)))
                 (customers_json w) (reservations_json w) (stdout w ++ log))
        else
          (inr false,
           say (log ++ ["Error: No hay habitaciones disponibles en "
                        +:+ key +:+ "."]) w)
    | None =>
        (inr false,
         say (log ++ ["Error: Hotel con ID " +:+ key +:+ " no encontrado."]) w)
    end.
Proof.
  unfold Hotel.reserve_room. run. fold key. change (store_of _) with (hotel_store w).
  unfold getitem.
  destruct (hotel_store w !! key) eqn:E.
  - rewrite (py_in_true _ _ _ E). run. by destruct (bool_decide _); run.
  - by rewrite (py_in_false _ _ E).
Qed.

Lemma cancel_room_run :
  Hotel.cancel_room hotel_id w =
    match hotel_store w !! key with
    | Some _ =>
        (inr true,
         World (Doc (alter (fun h => set_rooms (rooms h + 1)%Z h) key
                           (hotel_store w)))
               (customers_json w) (reservations_json w) (stdout w ++ log))
    | None =>
        (inr false,
         say (log ++ ["Error: Hotel con ID " +:+ key +:+ " no encontrado."]) w)
    end.
Proof.
  unfold Hotel.cancel_room. run. fold key. change (store_of _) with (hotel_store w).
  destruct (hotel_store w !! key) eqn:E.
  - by rewrite (py_in_true _ _ _ E).
  - by rewrite (py_in_false _ _ E).
Qed.
Lemma delete_hotel_run :
  Hotel.delete_hotel hotel_id w =
    match hotel_store w !! key with
    | Some _ =>
        (inr true,
         World (Doc (delete key (hotel_store w)))
               (customers_json w) (reservations_json w) (stdout w ++ log))
    | None =>
        (inr false,
         say (log ++ ["Error: Hotel con ID " +:+ key +:+ " no encontrado."]) w)
    end.
Proof.
  unfold Hotel.delete_hotel. run. fold key. change (store_of _) with (hotel_store w).
  unfold delitem.
  destruct (hotel_store w !! key) eqn:E.
  - by rewrite (py_in_true _ _ _ E).
  - by rewrite (py_in_false _ _ E).
Qed.
End HotelRuns.

Section CustomerRuns.
Import CustomerRec.
Variables (w : world) (customer_id : pyval).
Let key := str customer_id.
Let log := load_log Customer.FILE_NAME w.

Lemma create_customer_run (n e : string) :
  Customer.create_customer customer_id n e w =
    match customer_store w !! key with
    | Some _ =>
        (inr false,
         say (log ++ ["Error: El ID del cliente " +:+ key +:+ " ya existe."]) w)
    | None =>
        (inr true,
         World (hotels_json w)
               (Doc (<[key := CustomerRec.mk n e]> (customer_store w)))
               (reservations_json w) (stdout w ++ log))
    end.
Proof.
  unfold Customer.create_customer. run. fold key.
  change (store_of _) with (customer_store w).
  destruct (customer_store w !! key) eqn:E.
  - by rewrite (py_in_true _ _ _ E).
  - by rewrite (py_in_false _ _ E).
Qed.

Lemma modify_customer_run (n e : option string) :
  Customer.modify_customer customer_id n e w =
    match customer_store w !! key with
    | Some _ =>
        (inr true,
         World (hotels_json w)
               (Doc (Customer.assign_fields key n e (customer_store w)))
               (reservations_json w) (stdout w ++ log))
    | None =>
        (inr false,
         say (log ++ ["Error: Cliente con ID " +:+ key +:+ " no encontrado."]) w)
    end.
Proof.
  unfold Customer.modify_customer. run. fold key.
  change (store_of _) with (customer_store w).
  destruct (customer_store w !! key) eqn:E.
  - by rewrite (py_in_true _ _ _ E).
  - by rewrite (py_in_false _ _ E).
Qed.
End CustomerRuns.

Section ReservationRuns.
Import HotelRec ReservationRec.
Variables (w : world) (reservation_id : pyval).
Let key := str reservation_id.

Lemma create_reservation_run (customer_id hotel_id : pyval) :
  Reservation.create_reservation reservation_id customer_id hotel_id w =
    match reservation_store w !! key with
    | Some _ =>
        (inr false,
         say (create_log w ++ ["Error: La reservación " +:+ key +:+ " ya existe."]) w)
    | None =>
    match customer_store w !! str customer_id with
    | None =>
        (inr false,
         say (create_log w ++ ["Error: El cliente " +:+ str customer_id
                             +:+ " no existe."]) w)
    | Some _ =>
    match hotel_store w !! str hotel_id with
    | None =>
        (inr false,
         say (create_log w ++ ["Error: El hotel " +:+ str hotel_id
                             +:+ " no existe."]) w)
    | Some h =>
        if bool_decide (0 < rooms h)%Z then
          (inr true,
           World (Doc (alter (fun h => set_rooms (rooms h - 1)%Z h)
                             (str hotel_id) (hotel_store w)))
                 (customers_json w)
                 (Doc (<[key := ReservationRec.mk (str customer_id) (str hotel_id)]>
                         (reservation_store w)))
                 (stdout w ++ create_log w ++ load_log Hotel.FILE_NAME w))
        else
          (inr false,
           say (create_log w ++ load_log Hotel.FILE_NAME w
                  ++ ["Error: No hay habitaciones disponibles en "
                      +:+ str hotel_id +:+ "."]) w)
    end end end.
Proof.
  unfold Reservation.create_reservation. run.
  change (store_of (fread Customer.FILE_NAME w)) with (customer_store w).
  change (store_of (fread Hotel.FILE_NAME _)) with (hotel_store w).
  change (store_of (fread Reservation.FILE_NAME _)) with (reservation_store w).
  change (load_log Hotel.FILE_NAME (say _ w)) with (load_log Hotel.FILE_NAME w).
  change (load_log Reservation.FILE_NAME (say _ w))
    with (load_log Reservation.FILE_NAME w).
  fold key. unfold create_log.
  destruct (reservation_store w !! key) eqn:Er.
  { rewrite (py_in_true _ _ _ Er). by rewrite <- ?app_assoc. }
  rewrite (py_in_false _ _ Er).
  destruct (customer_store w !! str customer_id) eqn:Ec; cycle 1.
  { rewrite (py_in_false _ _ Ec). by rewrite <- ?app_assoc. }
  rewrite (py_in_true _ _ _ Ec).
  destruct (hotel_store w !! str hotel_id) eqn:Eh; cycle 1.
  { rewrite (py_in_false _ _ Eh). by rewrite <- ?app_assoc. }
  rewrite (py_in_true _ _ _ Eh). simpl negb. cbv iota.
  rewrite reserve_room_run.
  change (hotel_store (say _ w)) with (hotel_store w). rewrite Eh.
  change (load_log Hotel.FILE_NAME (say _ w)) with (load_log Hotel.FILE_NAME w).
  destruct (bool_decide _); run; unfold say; simpl; by rewrite <- ?app_assoc.
Qed.

Lemma cancel_reservation_run :
  Reservation.cancel_reservation reservation_id w =
    let rlog := load_log Reservation.FILE_NAME w in
    let hlog := load_log Hotel.FILE_NAME w in
    match reservation_store w !! key with
    | None =>
        (inr false,
         say (rlog ++ ["Error: Reservación " +:+ key +:+ " no encontrada."]) w)
    | Some res =>
        let remaining := Doc (delete key (reservation_store w)) in
        match hotel_store w !! hotel_id res with
        | Some _ =>
            (inr true,
             World (Doc (alter (fun h => set_rooms (rooms h + 1)%Z h)
                               (hotel_id res) (hotel_store w)))
                   (customers_json w) remaining (stdout w ++ rlog ++ hlog))
        | None =>
            (inr true,
             World (hotels_json w) (customers_json w) remaining
                   (stdout w ++ rlog ++ hlog
                      ++ ["Error: Hotel con ID " +:+ hotel_id res
                          +:+ " no encontrado."]))
        end
    end.
Proof.
  unfold Reservation.cancel_reservation. run.
  change (store_of _) with (reservation_store w). fold key.
  unfold getitem, delitem. cbv zeta.
  destruct (reservation_store w !! key) as [res|] eqn:Er.
  - rewrite (py_in_true _ _ _ Er). run. rewrite cancel_room_run.
    change (hotel_store (say _ w)) with (hotel_store w).
    change (str (PyStr (hotel_id res))) with (hotel_id res).
    change (load_log Hotel.FILE_NAME (say _ w)) with (load_log Hotel.FILE_NAME w).
    destruct (hotel_store w !! hotel_id res); run; simpl;
      by rewrite <- ?app_assoc.
  - by rewrite (py_in_false _ _ Er).
Qed.
End ReservationRuns.

(** * Facts about dictionaries and records *)

Lemma alter_lookup_insert {V} (f : V -> V) (k : string) (d : gmap string V) (v : V) :
  d !! k = Some v -> alter f k d = <[k := f v]> d.
Proof.
  intros E. apply map_eq. intros j. destruct (decide (k = j)) as [->|Hne].
  - by rewrite lookup_alter_eq, lookup_insert_eq, E.
  - by rewrite lookup_alter_ne, lookup_insert_ne.
Qed.

Lemma hotel_assign_fields_lookup (k : string) (n l : option string) (r : option Z)
    (d : gmap string HotelRec.t) (h : HotelRec.t) :
  d !! k = Some h ->
  Hotel.assign_fields k n l r d =
    <[k := HotelRec.mk (default (HotelRec.name h) n)
                       (default (HotelRec.location h) l)
                       (default (HotelRec.rooms h) r)]> d.
Proof.
  intros E. unfold Hotel.assign_fields.
  destruct h as [hn hl hr].
  apply map_eq. intros j. destruct (decide (k = j)) as [<-|Hne].
  - rewrite lookup_insert_eq.
    destruct n as [n|], l as [l|], r as [r|]; simpl;
      by rewrite ?lookup_alter_eq, E.
  - rewrite lookup_insert_ne by done.
    destruct n as [n|], l as [l|], r as [r|]; simpl;
      by rewrite ?lookup_alter_ne by done.
Qed.

Lemma customer_assign_fields_lookup (k : string) (n e : option string)
    (d : gmap string CustomerRec.t) (c : CustomerRec.t) :
  d !! k = Some c ->
  Customer.assign_fields k n e d =
    <[k := CustomerRec.mk (default (CustomerRec.name c) n)
                          (default (CustomerRec.email c) e)]> d.
Proof.
  intros E. unfold Customer.assign_fields.
  destruct c as [cn ce].
  apply map_eq. intros j. destruct (decide (k = j)) as [<-|Hne].
  - rewrite lookup_insert_eq.
    destruct n as [n|], e as [e|]; simpl;
      by rewrite ?lookup_alter_eq, E.
  - rewrite lookup_insert_ne by done.
    destruct n as [n|], e as [e|]; simpl;
      by rewrite ?lookup_alter_ne by done.
Qed.

(** A store that has an entry is read from a well-formed file, so loading it
    prints nothing and writing it back changes nothing. *)
Lemma hotel_file_of_lookup (w : world) (k : string) (h : HotelRec.t) :
  hotel_store w !! k = Some h ->
  hotels_json w = Doc (hotel_store w) /\ load_log Hotel.FILE_NAME w = [].
Proof.
  unfold hotel_store, load_log. simpl.
  destruct (hotels_json w); simpl; rewrite ?lookup_empty; by intros.
Qed.

Lemma customer_file_of_lookup (w : world) (k : string) (c : CustomerRec.t) :
  customer_store w !! k = Some c ->
  customers_json w = Doc (customer_store w) /\ load_log Customer.FILE_NAME w = [].
Proof.
  unfold customer_store, load_log. simpl.
  destruct (customers_json w); simpl; rewrite ?lookup_empty; by intros.
Qed.

Lemma reservation_file_of_lookup (w : world) (k : string) (r : ReservationRec.t) :
  reservation_store w !! k = Some r ->
  reservations_json w = Doc (reservation_store w)
  /\ load_log Reservation.FILE_NAME w = [].
Proof.
  unfold reservation_store, load_log. simpl.
  destruct (reservations_json w); simpl; rewrite ?lookup_empty; by intros.
Qed.

Lemma hotel_store_Doc d c r o : hotel_store (World (Doc d) c r o) = d.
Proof. reflexivity. Qed.

Lemma customer_store_Doc h d r o : customer_store (World h (Doc d) r o) = d.
Proof. reflexivity. Qed.

Lemma reservation_store_Doc h c d o : reservation_store (World h c (Doc d) o) = d.
Proof. reflexivity. Qed.

(** * Persistence adapter *)

(** Among files of UTF-8 text: loading a file that is missing, or whose text
    [json.load] rejects, returns the empty dictionary as a normal result and
    leaves every file as it was; a missing file prints nothing, a rejected
    one prints exactly one diagnostic line. *)
Theorem load_data_fallback {A} `{Empty A} (f : file A) (w : world) :
  fread f w = Missing \/ (exists raw, fread f w = Corrupt raw) ->
  result (load_data f) w = inr ∅
  /\ same_files w (exec (load_data f) w)
  /\ (fread f w = Missing -> stdout (exec (load_data f) w) = stdout w)
  /\ (forall raw, fread f w = Corrupt raw ->
        stdout (exec (load_data f) w) = (stdout w ++ [diagnostic f])%list).
Proof.
  intros Hbad. unfold result, exec. rewrite load_data_run. simpl.
  split; [|split; [|split]].
  - destruct Hbad as [E|[raw E]]; by rewrite E.
  - apply same_files_say.
  - intros E. unfold load_log. rewrite E. apply app_nil_r.
  - intros raw E. unfold load_log. by rewrite E.
Qed.

Lemma load_data_fallback_witness :
  result (load_data Hotel.FILE_NAME)
         (World (Corrupt "{invalid_json: data") Missing Missing []) = inr ∅
  /\ stdout (exec (load_data Hotel.FILE_NAME)
                  (World (Corrupt "{invalid_json: data") Missing Missing []))
     = ["Error: Datos JSON inválidos en hotels.json. Retornando vacío."]
  /\ exec (load_data Customer.FILE_NAME)
          (World (Corrupt "{invalid_json: data") Missing Missing [])
     = World (Corrupt "{invalid_json: data") Missing Missing [].
Proof.
  pose proof (load_data_fallback Hotel.FILE_NAME
                (World (Corrupt "{invalid_json: data") Missing Missing [])
                (or_intror (ex_intro _ "{invalid_json: data" eq_refl)))
    as (Hres & _ & _ & Hout).
  split; [exact Hres|]. split; [exact (Hout _ eq_refl)|]. reflexivity.
Defined.

(** ** Files that are not text *)

(** On every file that is UTF-8 text, [load_data] over the typed world
    returns and prints what [Disk.load_data] does on the bytes. *)
Lemma load_data_refines_disk {A} `{Empty A} (json_loads : string -> option A)
    (f : file A) (w : world) (disk : option (list Byte.byte)) :
  Disk.classify json_loads disk = Some (fread f w) ->
  Disk.load_data json_loads (file_name f) disk
  = (result (load_data f) w, load_log f w).
Proof.
  unfold result. rewrite load_data_run. simpl.
  unfold Disk.classify, Disk.load_data, Disk.json_load, load_log, diagnostic.
  destruct disk as [bytes|]; simpl.
  - destruct (Disk.read_text bytes) as [e|text]; [discriminate|].
    destruct (json_loads text); intros [= <-]; reflexivity.
  - intros [= <-]. reflexivity.
Qed.

(** What [load_data] does recover from: a file that is not there, and text
    that [json.loads] rejects. *)
Lemma disk_load_data_fallback {A} `{Empty A} (json_loads : string -> option A)
    (filename : string) (file : option (list Byte.byte)) :
  file = None
  \/ (exists bytes, file = Some bytes /\ Disk.utf8_valid bytes = true
                    /\ json_loads (string_of_list_byte bytes) = None) ->
  fst (Disk.load_data json_loads filename file) = inr ∅.
Proof.
  intros [->|(bytes & -> & Hutf & Hjson)]; [reflexivity|].
  unfold Disk.load_data, Disk.json_load, Disk.read_text. simpl.
  by rewrite Hutf, Hjson.
Qed.

(** Bytes that are not UTF-8 make [load_data] raise, whatever the parser. *)
Lemma disk_load_data_undecodable {A} `{Empty A} (json_loads : string -> option A)
    (filename : string) (bytes : list Byte.byte) :
  Disk.utf8_valid bytes = false ->
  Disk.load_data json_loads filename (Some bytes) = (inl UnicodeDecodeError, []).
Proof.
  intros Hutf. unfold Disk.load_data, Disk.json_load, Disk.read_text. simpl.
  by rewrite Hutf.
Qed.

(** C7, failing input.  A file that exists and holds the single byte [0xFF]
    is not valid structured data, yet [load_data] does not return the empty
    dictionary: the text-mode read raises [UnicodeDecodeError], the
    [except json.JSONDecodeError] clause does not catch it, and it reaches
    the caller with nothing printed.  This holds for every file name and
    whatever [json.loads] accepts. *)
Theorem load_data_raises_on_non_utf8 {A} `{Empty A}
    (json_loads : string -> option A) (filename : string) :
  Disk.os_path_exists (Some [Byte.xff]) = true
  /\ Disk.utf8_valid [Byte.xff] = false
  /\ Disk.load_data json_loads filename (Some [Byte.xff])
     = (inl UnicodeDecodeError, [])
  /\ fst (Disk.load_data json_loads filename (Some [Byte.xff])) <> inr ∅.
Proof.
  split; [reflexivity|]. split; [reflexivity|].
  rewrite (disk_load_data_undecodable json_loads filename [Byte.xff] eq_refl).
  split; [reflexivity|discriminate].
Qed.

(** * Hotel registry *)

(** C3, as the code has it.  [reserve_room] fails, writing no file, when the
    hotel is not in the store or its room count is not positive (zero or
    below); when the count is positive it succeeds, the count of that hotel
    goes down by one, its other fields and all other hotels stay as they
    were, and the other two files are untouched. *)
Theorem reserve_room_spec (w : world) (hotel_id : pyval) :
  (hotel_store w !! str hotel_id = None
   \/ (exists n, room_count w (str hotel_id) = Some n /\ (n <= 0)%Z) ->
   result (Hotel.reserve_room hotel_id) w = inr false
   /\ same_files w (exec (Hotel.reserve_room hotel_id) w))
  /\ (forall h, hotel_store w !! str hotel_id = Some h -> (0 < HotelRec.rooms h)%Z ->
      result (Hotel.reserve_room hotel_id) w = inr true
      /\ hotel_store (exec (Hotel.reserve_room hotel_id) w)
         = <[str hotel_id := HotelRec.set_rooms (HotelRec.rooms h - 1)%Z h]>
             (hotel_store w)
      /\ room_count (exec (Hotel.reserve_room hotel_id) w) (str hotel_id)
         = Some (HotelRec.rooms h - 1)%Z
      /\ customers_json (exec (Hotel.reserve_room hotel_id) w) = customers_json w
      /\ reservations_json (exec (Hotel.reserve_room hotel_id) w)
         = reservations_json w).
Proof.
  unfold result, exec, room_count. rewrite reserve_room_run. split.
  - intros [E|(n & E & Hn)].
    + rewrite E. simpl. split; [done|apply same_files_say].
    + destruct (hotel_store w !! str hotel_id) as [h|]; [|done].
      simpl in E. injection E as ->.
      rewrite bool_decide_eq_false_2 by lia.
      simpl. split; [done|apply same_files_say].
  - intros h E Hpos. rewrite E, bool_decide_eq_true_2 by done. simpl.
    rewrite (alter_lookup_insert _ _ _ _ E), !hotel_store_Doc, lookup_insert_eq.
    by repeat split.
Qed.

Lemma reserve_room_spec_witness :
  result (Hotel.reserve_room (PyInt 1)) hilton_world = inr true
  /\ room_count (exec (Hotel.reserve_room (PyInt 1)) hilton_world) "1" = Some 9%Z
  /\ result (Hotel.reserve_room (PyInt 1)) full_world = inr false
  /\ result (Hotel.reserve_room (PyInt 7)) full_world = inr false.
Proof.
  destruct (reserve_room_spec hilton_world (PyInt 1)) as [_ Hok].
  destruct (Hok (HotelRec.mk "Hilton" "NY" 10) eq_refl eq_refl)
    as (Hres & _ & Hcount & _).
  destruct (reserve_room_spec full_world (PyInt 1)) as [Hfull _].
  destruct (reserve_room_spec full_world (PyInt 7)) as [Hnone _].
  split; [exact Hres|]. split; [exact Hcount|].
  split.
  - apply Hfull. right. exists 0%Z. split; [reflexivity|lia].
  - apply Hnone. left. reflexivity.
Defined.

(** C3, counterexample.  A hotel stored with room count -1 is present and
    its count is not 0, yet [reserve_room] fails and decrements nothing. *)
Lemma reserve_room_negative_count_fails :
  is_Some (hotel_store overdrawn_world !! str (PyInt 1))
  /\ room_count overdrawn_world (str (PyInt 1)) = Some (-1)%Z
  /\ result (Hotel.reserve_room (PyInt 1)) overdrawn_world = inr false
  /\ room_count (exec (Hotel.reserve_room (PyInt 1)) overdrawn_world) (str (PyInt 1))
     = Some (-1)%Z.
Proof. vm_compute. repeat split. eauto. Qed.

(** * Modifying records *)

Section Modify.
Variables (w : world) (id : pyval).

Lemma modify_hotel_absent (n l : option string) (r : option Z) :
  hotel_store w !! str id = None ->
  result (Hotel.modify_hotel id n l r) w = inr false
  /\ same_files w (exec (Hotel.modify_hotel id n l r) w).
Proof.
  intros E. unfold result, exec. rewrite modify_hotel_run, E.
  split; [reflexivity|apply same_files_say].
Qed.

Lemma modify_hotel_present (n l : option string) (r : option Z) (h : HotelRec.t) :
  hotel_store w !! str id = Some h ->
  Hotel.modify_hotel id n l r w =
    (inr true,
     World (Doc (<[str id := HotelRec.mk (default (HotelRec.name h) n)
                                         (default (HotelRec.location h) l)
                                         (default (HotelRec.rooms h) r)]>
                   (hotel_store w)))
           (customers_json w) (reservations_json w) (stdout w)).
Proof.
  intros E. rewrite modify_hotel_run, E.
  rewrite (hotel_assign_fields_lookup _ _ _ _ _ _ E).
  destruct (hotel_file_of_lookup _ _ _ E) as [_ ->]. by rewrite app_nil_r.
Qed.

Lemma modify_customer_absent (n e : option string) :
  customer_store w !! str id = None ->
  result (Customer.modify_customer id n e) w = inr false
  /\ same_files w (exec (Customer.modify_customer id n e) w).
Proof.
  intros E. unfold result, exec. rewrite modify_customer_run, E.
  split; [reflexivity|apply same_files_say].
Qed.

Lemma modify_customer_present (n e : option string) (c : CustomerRec.t) :
  customer_store w !! str id = Some c ->
  Customer.modify_customer id n e w =
    (inr true,
     World (hotels_json w)
           (Doc (<[str id := CustomerRec.mk (default (CustomerRec.name c) n)
                                            (default (CustomerRec.email c) e)]>
                   (customer_store w)))
           (reservations_json w) (stdout w)).
Proof.
  intros E. rewrite modify_customer_run, E.
  rewrite (customer_assign_fields_lookup _ _ _ _ _ E).
  destruct (customer_file_of_lookup _ _ _ E) as [_ ->]. by rewrite app_nil_r.
Qed.

(** C8.  In both registries, [modify] of an identifier that is not in the
    store fails and writes no file.  For an identifier that is in the store
    it succeeds and the record becomes the old one with exactly the supplied
    fields replaced: a field left at [None] keeps its prior value, every
    other record is as before, and the other two files are untouched. *)
Theorem modify_frame :
  (forall n l r, hotel_store w !! str id = None ->
     result (Hotel.modify_hotel id n l r) w = inr false
     /\ same_files w (exec (Hotel.modify_hotel id n l r) w))
  /\ (forall n l r h, hotel_store w !! str id = Some h ->
     result (Hotel.modify_hotel id n l r) w = inr true
     /\ hotel_store (exec (Hotel.modify_hotel id n l r) w) !! str id
        = Some (HotelRec.mk (default (HotelRec.name h) n)
                            (default (HotelRec.location h) l)
                            (default (HotelRec.rooms h) r))
     /\ (forall k, k <> str id ->
           hotel_store (exec (Hotel.modify_hotel id n l r) w) !! k
           = hotel_store w !! k)
     /\ customers_json (exec (Hotel.modify_hotel id n l r) w) = customers_json w
     /\ reservations_json (exec (Hotel.modify_hotel id n l r) w)
        = reservations_json w)
  /\ (forall n e, customer_store w !! str id = None ->
     result (Customer.modify_customer id n e) w = inr false
     /\ same_files w (exec (Customer.modify_customer id n e) w))
  /\ (forall n e c, customer_store w !! str id = Some c ->
     result (Customer.modify_customer id n e) w = inr true
     /\ customer_store (exec (Customer.modify_customer id n e) w) !! str id
        = Some (CustomerRec.mk (default (CustomerRec.name c) n)
                               (default (CustomerRec.email c) e))
     /\ (forall k, k <> str id ->
           customer_store (exec (Customer.modify_customer id n e) w) !! k
           = customer_store w !! k)
     /\ hotels_json (exec (Customer.modify_customer id n e) w) = hotels_json w
     /\ reservations_json (exec (Customer.modify_customer id n e) w)
        = reservations_json w).
Proof.
  split; [exact modify_hotel_absent|].
  split.
  { intros n l r h E. unfold result, exec.
    rewrite (modify_hotel_present n l r h E). simpl. rewrite hotel_store_Doc.
    split; [reflexivity|]. split; [apply lookup_insert_eq|].
    split; [|done]. intros k Hk. by apply lookup_insert_ne. }
  split; [exact modify_customer_absent|].
  intros n e c E. unfold result, exec.
  rewrite (modify_customer_present n e c E). simpl. rewrite customer_store_Doc.
  split; [reflexivity|]. split; [apply lookup_insert_eq|].
  split; [|done]. intros k Hk. by apply lookup_insert_ne.
Qed.

(** C10.  [modify] of a record that is in its store, with every optional
    field left unset, returns [True] and leaves the whole world (the record,
    the rest of its store, the other files, the output) exactly as it was. *)
Theorem modify_nothing_is_identity :
  (is_Some (hotel_store w !! str id) ->
     Hotel.modify_hotel id None None None w = (inr true, w))
  /\ (is_Some (customer_store w !! str id) ->
     Customer.modify_customer id None None w = (inr true, w)).
Proof.
  split.
  - intros [[hn hl hr] E]. rewrite (modify_hotel_present _ _ _ _ E). simpl.
    rewrite insert_id by exact E.
    destruct (hotel_file_of_lookup _ _ _ E) as [<- _]. by destruct w.
  - intros [[cn ce] E]. rewrite (modify_customer_present _ _ _ E). simpl.
    rewrite insert_id by exact E.
    destruct (customer_file_of_lookup _ _ _ E) as [<- _]. by destruct w.
Qed.
End Modify.

Lemma modify_frame_witness :
  result (Hotel.modify_hotel (PyInt 1) (Some "Hilton Updated") None (Some 150%Z))
         hilton_world = inr true
  /\ hotel_store (exec (Hotel.modify_hotel (PyInt 1) (Some "Hilton Updated") None
                                           (Some 150%Z)) hilton_world) !! "1"
     = Some (HotelRec.mk "Hilton Updated" "NY" 150)
  /\ result (Hotel.modify_hotel (PyInt 99) (Some "Ghost") None None) hilton_world
     = inr false
  /\ result (Customer.modify_customer (PyInt 1) None (Some "j@test.com"))
            hilton_world = inr true
  /\ customer_store (exec (Customer.modify_customer (PyInt 1) None
                                                    (Some "j@test.com"))
                          hilton_world) !! "1"
     = Some (CustomerRec.mk "John" "j@test.com")
  /\ result (Customer.modify_customer (PyInt 99) (Some "Ghost") None) hilton_world
     = inr false.
Proof.
  destruct (modify_frame hilton_world (PyInt 1)) as (_ & Hh & _ & Hc).
  destruct (modify_frame hilton_world (PyInt 99)) as (Hha & _ & Hca & _).
  destruct (Hh (Some "Hilton Updated") None (Some 150%Z)
               (HotelRec.mk "Hilton" "NY" 10) eq_refl) as (H1 & H2 & _).
  destruct (Hc None (Some "j@test.com")
               (CustomerRec.mk "John" "john@test.com") eq_refl) as (H3 & H4 & _).
  destruct (Hha (Some "Ghost") None None eq_refl) as [H5 _].
  destruct (Hca (Some "Ghost") None eq_refl) as [H6 _].
  repeat split; assumption.
Defined.

Lemma modify_nothing_is_identity_witness :
  Hotel.modify_hotel (PyInt 1) None None None hilton_world = (inr true, hilton_world)
  /\ Customer.modify_customer (PyInt 1) None None hilton_world
     = (inr true, hilton_world).
Proof.
  destruct (modify_nothing_is_identity hilton_world (PyInt 1)) as [Hh Hc].
  split.
  - apply Hh. exists (HotelRec.mk "Hilton" "NY" 10). reflexivity.
  - apply Hc. exists (CustomerRec.mk "John" "john@test.com"). reflexivity.
Defined.

(** * The room-count invariant *)

Section Invariant.
Import HotelRec.

Lemma rooms_nonneg_say (l : list string) (w : world) :
  rooms_nonneg w -> rooms_nonneg (say l w).
Proof. done. Qed.

Lemma rooms_nonneg_alter (f : HotelRec.t -> HotelRec.t) (k : string)
    (d : gmap string HotelRec.t) c r o :
  map_Forall (fun _ h => (0 <= rooms h)%Z) d ->
  (forall h, d !! k = Some h -> (0 <= rooms (f h))%Z) ->
  rooms_nonneg (World (Doc (alter f k d)) c r o).
Proof.
  intros Hd Hf j h'. unfold hotel_store; simpl. rewrite lookup_alter_Some.
  intros [(-> & h & E & ->)|[_ E]]; [by apply Hf|by apply (Hd j)].
Qed.

Variable w : world.
Hypothesis Hinv : rooms_nonneg w.

Lemma create_hotel_nonneg id n l (r : Z) :
  (0 <= r)%Z -> rooms_nonneg (exec (Hotel.create_hotel id n l r) w).
Proof.
  intros Hr. unfold exec. rewrite create_hotel_run.
  destruct (hotel_store w !! str id); simpl; [done|].
  by apply map_Forall_insert_2.
Qed.

Lemma modify_hotel_nonneg id n l (r : option Z) :
  (forall v, r = Some v -> (0 <= v)%Z) ->
  rooms_nonneg (exec (Hotel.modify_hotel id n l r) w).
Proof.
  intros Hr. unfold exec. rewrite modify_hotel_run.
  destruct (hotel_store w !! str id) as [h|] eqn:E; simpl; [|done].
  rewrite (hotel_assign_fields_lookup _ _ _ _ _ _ E).
  apply map_Forall_insert_2; [|done]. simpl.
  destruct r as [v|]; simpl; [by apply Hr|by apply (Hinv _ _ E)].
Qed.

Lemma delete_hotel_nonneg id : rooms_nonneg (exec (Hotel.delete_hotel id) w).
Proof.
  unfold exec. rewrite delete_hotel_run.
  destruct (hotel_store w !! str id); simpl; [|done].
  by apply map_Forall_delete.
Qed.

Lemma reserve_room_nonneg id : rooms_nonneg (exec (Hotel.reserve_room id) w).
Proof.
  unfold exec. rewrite reserve_room_run.
  destruct (hotel_store w !! str id) as [h|] eqn:E; simpl; [|done].
  case_bool_decide as Hpos; simpl; [|done].
  apply rooms_nonneg_alter; [done|].
  intros h' E'. simpl. assert (h' = h) as -> by congruence. lia.
Qed.

Lemma cancel_room_nonneg id : rooms_nonneg (exec (Hotel.cancel_room id) w).
Proof.
  unfold exec. rewrite cancel_room_run.
  destruct (hotel_store w !! str id) as [h|] eqn:E; simpl; [|done].
  apply rooms_nonneg_alter; [done|].
  intros h' E'. simpl. pose proof (Hinv _ _ E'). simpl in *. lia.
Qed.

Lemma create_reservation_nonneg r c h :
  rooms_nonneg (exec (Reservation.create_reservation r c h) w).
Proof.
  unfold exec. rewrite create_reservation_run.
  destruct (reservation_store w !! str r); simpl; [done|].
  destruct (customer_store w !! str c); simpl; [|done].
  destruct (hotel_store w !! str h) as [rec|] eqn:E; simpl; [|done].
  case_bool_decide as Hpos; simpl; [|done].
  apply rooms_nonneg_alter; [done|].
  intros h' E'. simpl. assert (h' = rec) as -> by congruence. lia.
Qed.

Lemma cancel_reservation_nonneg r :
  rooms_nonneg (exec (Reservation.cancel_reservation r) w).
Proof.
  unfold exec. rewrite cancel_reservation_run. cbv zeta.
  destruct (reservation_store w !! str r) as [res|]; simpl; [|done].
  destruct (hotel_store w !! ReservationRec.hotel_id res) as [rec|] eqn:E;
    simpl; [|done].
  apply rooms_nonneg_alter; [done|].
  intros h' E'. simpl. pose proof (Hinv _ _ E'). simpl in *. lia.
Qed.
End Invariant.

(** A room count that went down across [reserve_room] was positive, and went
    down by exactly one.  (No invariant is needed for this.) *)
Lemma reserve_room_decrement (w : world) (id : pyval) (k : string)
    (h h' : HotelRec.t) :
  hotel_store w !! k = Some h ->
  hotel_store (exec (Hotel.reserve_room id) w) !! k = Some h' ->
  (HotelRec.rooms h' < HotelRec.rooms h)%Z ->
  (0 < HotelRec.rooms h)%Z /\ HotelRec.rooms h' = (HotelRec.rooms h - 1)%Z.
Proof.
  intros E. unfold exec. rewrite reserve_room_run.
  destruct (hotel_store w !! str id) as [rec|] eqn:Eid; simpl.
  - case_bool_decide as Hpos; simpl.
    + rewrite hotel_store_Doc, lookup_alter_Some.
      intros [(<- & x & Ex & ->)|[_ E']] Hlt; simpl in *.
      * assert (x = h) as -> by congruence. assert (rec = h) as -> by congruence.
        done.
      * assert (h' = h) as -> by congruence. lia.
    + change (hotel_store (say _ w)) with (hotel_store w).
      intros E' Hlt. assert (h' = h) as -> by congruence. lia.
  - change (hotel_store (say _ w)) with (hotel_store w).
    intros E' Hlt. assert (h' = h) as -> by congruence. lia.
Qed.

(** C1, as the code has it.  From a world in which no stored room count is
    negative: [reserve_room], [cancel_room], [delete_hotel],
    [create_reservation] and [cancel_reservation] always lead to such a world
    again; [create_hotel] and [modify_hotel] store the [rooms] argument as
    given, so they do when that argument is not negative (or, for
    [modify_hotel], is left unset); and a count that [reserve_room] lowers was
    positive and is lowered by one. *)
Theorem rooms_nonneg_preserved (w : world) :
  rooms_nonneg w ->
  (forall id n l r, (0 <= r)%Z -> rooms_nonneg (exec (Hotel.create_hotel id n l r) w))
  /\ (forall id n l r, (forall v, r = Some v -> (0 <= v)%Z) ->
        rooms_nonneg (exec (Hotel.modify_hotel id n l r) w))
  /\ (forall id, rooms_nonneg (exec (Hotel.delete_hotel id) w))
  /\ (forall id, rooms_nonneg (exec (Hotel.reserve_room id) w))
  /\ (forall id, rooms_nonneg (exec (Hotel.cancel_room id) w))
  /\ (forall r c h, rooms_nonneg (exec (Reservation.create_reservation r c h) w))
  /\ (forall r, rooms_nonneg (exec (Reservation.cancel_reservation r) w))
  /\ (forall id k h h',
        hotel_store w !! k = Some h ->
        hotel_store (exec (Hotel.reserve_room id) w) !! k = Some h' ->
        (HotelRec.rooms h' < HotelRec.rooms h)%Z ->
        (0 < HotelRec.rooms h)%Z /\ HotelRec.rooms h' = (HotelRec.rooms h - 1)%Z).
Proof.
  intros Hinv.
  split; [intros; by apply create_hotel_nonneg|].
  split; [intros; by apply modify_hotel_nonneg|].
  split; [intros; by apply delete_hotel_nonneg|].
  split; [intros; by apply reserve_room_nonneg|].
  split; [intros; by apply cancel_room_nonneg|].
  split; [intros; by apply create_reservation_nonneg|].
  split; [intros; by apply cancel_reservation_nonneg|].
  intros id k h h'. apply reserve_room_decrement.
Qed.

Lemma hilton_world_nonneg : rooms_nonneg hilton_world.
Proof. unfold rooms_nonneg. apply (bool_decide_unpack _). vm_compute. exact I. Qed.

Lemma rooms_nonneg_preserved_witness :
  rooms_nonneg hilton_world
  /\ rooms_nonneg (exec (Hotel.create_hotel (PyInt 2) "Marriott" "LA" 50) hilton_world)
  /\ rooms_nonneg (exec (Hotel.modify_hotel (PyInt 1) None None (Some 150%Z))
                        hilton_world)
  /\ rooms_nonneg (exec (Reservation.create_reservation (PyInt 1) (PyInt 1) (PyInt 1))
                        hilton_world).
Proof.
  pose proof (rooms_nonneg_preserved hilton_world hilton_world_nonneg)
    as (Hc & Hm & _ & _ & _ & Hr & _).
  split; [exact hilton_world_nonneg|].
  split; [apply Hc; lia|].
  split; [apply Hm; intros v [= <-]; lia|].
  apply Hr.
Defined.

(** C1, counterexample.  [create_hotel] and [modify_hotel] do not look at the
    room count they are given: from worlds where every count is
    non-negative, each of them succeeds and stores a negative count. *)
Lemma create_hotel_stores_negative_rooms :
  rooms_nonneg fresh_world
  /\ result (Hotel.create_hotel (PyInt 1) "Hilton" "NY" (-1)) fresh_world = inr true
  /\ room_count (exec (Hotel.create_hotel (PyInt 1) "Hilton" "NY" (-1)) fresh_world)
       "1" = Some (-1)%Z
  /\ ~ rooms_nonneg (exec (Hotel.create_hotel (PyInt 1) "Hilton" "NY" (-1))
                          fresh_world)
  /\ rooms_nonneg hilton_world
  /\ result (Hotel.modify_hotel (PyInt 1) None None (Some (-5)%Z)) hilton_world
     = inr true
  /\ ~ rooms_nonneg (exec (Hotel.modify_hotel (PyInt 1) None None (Some (-5)%Z))
                          hilton_world).
Proof.
  split; [apply map_Forall_empty|].
  split; [reflexivity|]. split; [reflexivity|].
  split; [intros H; specialize (H "1" _ eq_refl); simpl in H; lia|].
  split; [exact hilton_world_nonneg|]. split; [reflexivity|].
  intros H; specialize (H "1" _ eq_refl); simpl in H; lia.
Qed.

(** * Reservation coordinator *)

Section Coordinator.
Import HotelRec ReservationRec.

(** What [cancel_reservation] does to a reservation whose hotel exists. *)
Lemma cancel_reservation_present (w : world) (r : pyval)
    (res : ReservationRec.t) (rec : HotelRec.t) :
  reservation_store w !! str r = Some res ->
  hotel_store w !! hotel_id res = Some rec ->
  Reservation.cancel_reservation r w =
    (inr true,
     World (Doc (<[hotel_id res := set_rooms (rooms rec + 1)%Z rec]> (hotel_store w)))
           (customers_json w)
           (Doc (delete (str r) (reservation_store w)))
           (stdout w)).
Proof.
  intros Er Eh. rewrite cancel_reservation_run. cbv zeta. rewrite Er, Eh.
  rewrite (alter_lookup_insert _ _ _ _ Eh).
  destruct (reservation_file_of_lookup _ _ _ Er) as [_ ->].
  destruct (hotel_file_of_lookup _ _ _ Eh) as [_ ->].
  by rewrite !app_nil_r.
Qed.

Variables (w : world) (r c h : pyval).

(** What a successful [create_reservation] found and what it wrote. *)
Lemma create_reservation_success_inv :
  result (Reservation.create_reservation r c h) w = inr true ->
  exists rec,
    reservation_store w !! str r = None
    /\ is_Some (customer_store w !! str c)
    /\ hotel_store w !! str h = Some rec
    /\ (0 < rooms rec)%Z
    /\ exec (Reservation.create_reservation r c h) w =
         World (Doc (<[str h := set_rooms (rooms rec - 1)%Z rec]> (hotel_store w)))
               (customers_json w)
               (Doc (<[str r := ReservationRec.mk (str c) (str h)]>
                       (reservation_store w)))
               (stdout w ++ create_log w ++ load_log Hotel.FILE_NAME w).
Proof.
  unfold result, exec. rewrite create_reservation_run.
  destruct (reservation_store w !! str r); [done|].
  destruct (customer_store w !! str c) as [cust|]; [|done].
  destruct (hotel_store w !! str h) as [rec|] eqn:Eh; [|done].
  case_bool_decide as Hpos; [|done].
  intros _. exists rec. simpl.
  rewrite (alter_lookup_insert _ _ _ _ Eh). by eauto 10.
Qed.

(** The conditions under which [create_reservation] succeeds. *)
Lemma create_reservation_success (rec : HotelRec.t) :
  reservation_store w !! str r = None ->
  is_Some (customer_store w !! str c) ->
  hotel_store w !! str h = Some rec ->
  (0 < rooms rec)%Z ->
  result (Reservation.create_reservation r c h) w = inr true.
Proof.
  intros Er [cust Ec] Eh Hpos. unfold result.
  rewrite create_reservation_run, Er, Ec, Eh.
  by rewrite bool_decide_eq_true_2.
Qed.

(** C2.  A successful [create_reservation] leaves the room count of its
    hotel exactly one lower.  [cancel_reservation] of a reservation whose
    hotel is still in the store succeeds and leaves that hotel's room count
    exactly one higher.  Hence cancelling right after a successful create
    succeeds and brings the hotel store (and so the room count) back to
    what it was. *)
Theorem reservation_room_accounting :
  (result (Reservation.create_reservation r c h) w = inr true ->
     exists n,
       room_count w (str h) = Some n
       /\ room_count (exec (Reservation.create_reservation r c h) w) (str h)
          = Some (n - 1)%Z)
  /\ (forall res n,
        reservation_store w !! str r = Some res ->
        room_count w (hotel_id res) = Some n ->
        result (Reservation.cancel_reservation r) w = inr true
        /\ room_count (exec (Reservation.cancel_reservation r) w) (hotel_id res)
           = Some (n + 1)%Z)
  /\ (result (Reservation.create_reservation r c h) w = inr true ->
        result (Reservation.cancel_reservation r)
               (exec (Reservation.create_reservation r c h) w) = inr true
        /\ hotel_store (exec (Reservation.cancel_reservation r)
                          (exec (Reservation.create_reservation r c h) w))
           = hotel_store w
        /\ room_count (exec (Reservation.cancel_reservation r)
                         (exec (Reservation.create_reservation r c h) w)) (str h)
           = room_count w (str h)).
Proof.
  split; [|split].
  - intros Hok. destruct (create_reservation_success_inv Hok)
      as (rec & _ & _ & Eh & _ & ->).
    exists (rooms rec). unfold room_count.
    by rewrite Eh, hotel_store_Doc, lookup_insert_eq.
  - intros res n Er. unfold room_count.
    destruct (hotel_store w !! hotel_id res) as [rec|] eqn:Eh; [|done].
    intros [= <-]. unfold result, exec.
    rewrite (cancel_reservation_present _ _ _ _ Er Eh). simpl.
    by rewrite hotel_store_Doc, lookup_insert_eq.
  - intros Hok. destruct (create_reservation_success_inv Hok)
      as (rec & Er & _ & Eh & _ & ->).
    unfold result, exec, room_count.
    erewrite cancel_reservation_present; cycle 1.
    { rewrite reservation_store_Doc. apply lookup_insert_eq. }
    { simpl. rewrite hotel_store_Doc. apply lookup_insert_eq. }
    simpl. rewrite !hotel_store_Doc, insert_insert_eq.
    replace (set_rooms _ _) with rec
      by (destruct rec; unfold set_rooms; simpl; f_equal; lia).
    by rewrite (insert_id _ _ _ Eh).
Qed.

(** C4.  When the customer and the hotel exist, the reservation identifier
    is unused and the hotel has no room left (count 0), [create_reservation]
    returns [False] and writes no file: the count is still 0 and the
    reservation store has no new record. *)
Theorem create_reservation_no_rooms :
  is_Some (customer_store w !! str c) ->
  room_count w (str h) = Some 0%Z ->
  reservation_store w !! str r = None ->
  result (Reservation.create_reservation r c h) w = inr false
  /\ same_files w (exec (Reservation.create_reservation r c h) w)
  /\ room_count (exec (Reservation.create_reservation r c h) w) (str h) = Some 0%Z
  /\ reservation_store (exec (Reservation.create_reservation r c h) w)
     = reservation_store w.
Proof.
  intros [cust Ec] Hroom Er. unfold result, exec.
  rewrite create_reservation_run, Er, Ec.
  unfold room_count in *.
  destruct (hotel_store w !! str h) as [rec|] eqn:Eh; [|done].
  simpl in Hroom. injection Hroom as Hzero.
  rewrite bool_decide_eq_false_2 by lia. simpl.
  split; [done|]. split; [apply same_files_say|].
  change (hotel_store (say _ w)) with (hotel_store w).
  rewrite Eh. simpl. by rewrite Hzero.
Qed.

(** C5.  When the customer or the hotel named in the call is not in its
    store, [create_reservation] returns [False] and all three files are as
    before; in particular no room was taken. *)
Theorem create_reservation_unknown_party :
  customer_store w !! str c = None \/ hotel_store w !! str h = None ->
  result (Reservation.create_reservation r c h) w = inr false
  /\ same_files w (exec (Reservation.create_reservation r c h) w).
Proof.
  intros Habsent. unfold result, exec. rewrite create_reservation_run.
  destruct (reservation_store w !! str r);
    [split; [done|apply same_files_say]|].
  destruct (customer_store w !! str c) as [cust|];
    [|split; [done|apply same_files_say]].
  destruct Habsent as [?|Eh]; [done|]. rewrite Eh.
  split; [done|apply same_files_say].
Qed.

(** C6.  Cancelling a reservation whose hotel is no longer in the hotel
    store: the nested [cancel_room] fails and its result is dropped, the
    call still returns [True], the reservation record is removed, and the
    hotel and customer files are untouched. *)
Theorem cancel_reservation_dangling_hotel (res : ReservationRec.t) :
  reservation_store w !! str r = Some res ->
  hotel_store w !! hotel_id res = None ->
  result (Hotel.cancel_room (PyStr (hotel_id res))) w = inr false
  /\ result (Reservation.cancel_reservation r) w = inr true
  /\ reservation_store (exec (Reservation.cancel_reservation r) w)
     = delete (str r) (reservation_store w)
  /\ reservation_store (exec (Reservation.cancel_reservation r) w) !! str r = None
  /\ hotels_json (exec (Reservation.cancel_reservation r) w) = hotels_json w
  /\ customers_json (exec (Reservation.cancel_reservation r) w) = customers_json w.
Proof.
  intros Er Eh. unfold result, exec.
  rewrite cancel_room_run, cancel_reservation_run. cbv zeta.
  change (str (PyStr (hotel_id res))) with (hotel_id res).
  rewrite Er, Eh. simpl. rewrite reservation_store_Doc, lookup_delete_eq.
  by repeat split.
Qed.
End Coordinator.

Lemma reservation_room_accounting_witness :
  result (Reservation.create_reservation (PyInt 1) (PyInt 1) (PyInt 1)) hilton_world
  = inr true
  /\ room_count hilton_world "1" = Some 10%Z
  /\ room_count (exec (Reservation.create_reservation (PyInt 1) (PyInt 1) (PyInt 1))
                      hilton_world) "1" = Some 9%Z
  /\ room_count (exec (Reservation.cancel_reservation (PyInt 1))
                   (exec (Reservation.create_reservation (PyInt 1) (PyInt 1) (PyInt 1))
                         hilton_world)) "1" = Some 10%Z.
Proof.
  pose proof (reservation_room_accounting hilton_world (PyInt 1) (PyInt 1) (PyInt 1))
    as (_ & _ & Hround).
  pose proof (reservation_room_accounting
                (exec (Reservation.create_reservation (PyInt 1) (PyInt 1) (PyInt 1))
                      hilton_world) (PyInt 1) (PyInt 1) (PyInt 1))
    as (_ & Hcancel & _).
  destruct (Hround eq_refl) as (_ & _ & Hcount).
  destruct (Hcancel (ReservationRec.mk "1" "1") 9%Z eq_refl eq_refl) as [_ Hup].
  split; [reflexivity|]. split; [reflexivity|]. split; [reflexivity|].
  exact Hup.
Defined.

Lemma create_reservation_no_rooms_witness :
  is_Some (customer_store full_world !! "1")
  /\ room_count full_world "1" = Some 0%Z
  /\ result (Reservation.create_reservation (PyInt 1) (PyInt 1) (PyInt 1)) full_world
     = inr false
  /\ reservation_store
       (exec (Reservation.create_reservation (PyInt 1) (PyInt 1) (PyInt 1)) full_world)
     = reservation_store full_world.
Proof.
  assert (is_Some (customer_store full_world !! "1")) as Hcust
    by (exists (CustomerRec.mk "John" "john@test.com"); reflexivity).
  destruct (create_reservation_no_rooms full_world (PyInt 1) (PyInt 1) (PyInt 1)
              Hcust eq_refl eq_refl) as (Hres & _ & _ & Hstore).
  split; [exact Hcust|]. split; [reflexivity|]. split; [exact Hres|exact Hstore].
Defined.

Lemma create_reservation_unknown_party_witness :
  customer_store hilton_world !! "99" = None
  /\ result (Reservation.create_reservation (PyInt 1) (PyInt 99) (PyInt 1)) hilton_world
     = inr false
  /\ hotels_json
       (exec (Reservation.create_reservation (PyInt 1) (PyInt 99) (PyInt 1))
             hilton_world) = hotels_json hilton_world
  /\ result (Reservation.create_reservation (PyInt 1) (PyInt 1) (PyInt 99)) hilton_world
     = inr false.
Proof.
  destruct (create_reservation_unknown_party hilton_world (PyInt 1) (PyInt 99) (PyInt 1)
              (or_introl eq_refl)) as (Hres & Hhotels & _).
  destruct (create_reservation_unknown_party hilton_world (PyInt 1) (PyInt 1) (PyInt 99)
              (or_intror eq_refl)) as (Hres' & _).
  split; [reflexivity|]. split; [exact Hres|]. split; [exact Hhotels|exact Hres'].
Defined.

Lemma cancel_reservation_dangling_hotel_witness :
  reservation_store dangling_world !! "1" = Some (ReservationRec.mk "1" "1")
  /\ hotel_store dangling_world !! "1" = None
  /\ result (Reservation.cancel_reservation (PyInt 1)) dangling_world = inr true
  /\ reservation_store (exec (Reservation.cancel_reservation (PyInt 1)) dangling_world)
       !! "1" = None.
Proof.
  destruct (cancel_reservation_dangling_hotel dangling_world (PyInt 1)
              (ReservationRec.mk "1" "1") eq_refl eq_refl)
    as (_ & Hres & _ & Hgone & _).
  split; [reflexivity|]. split; [reflexivity|]. split; [exact Hres|exact Hgone].
Defined.

(** * Creating the same identifier twice *)

Section CreateTwice.
Variables (w : world) (id id' : pyval).
Hypothesis same_key : str id' = str id.

Lemma create_hotel_twice (n l : string) (r : Z) (n' l' : string) (r' : Z) :
  hotel_store w !! str id = None ->
  result (Hotel.create_hotel id n l r) w = inr true
  /\ result (Hotel.create_hotel id' n' l' r') (exec (Hotel.create_hotel id n l r) w)
     = inr false
  /\ same_files (exec (Hotel.create_hotel id n l r) w)
       (exec (Hotel.create_hotel id' n' l' r') (exec (Hotel.create_hotel id n l r) w))
  /\ hotel_store
       (exec (Hotel.create_hotel id' n' l' r') (exec (Hotel.create_hotel id n l r) w))
     = <[str id := HotelRec.mk n l r]> (hotel_store w).
Proof.
  intros E. unfold result, exec.
  rewrite (create_hotel_run w), E. simpl.
  rewrite create_hotel_run, hotel_store_Doc, same_key, lookup_insert_eq. simpl.
  split; [done|]. split; [done|]. split; [apply same_files_say|done].
Qed.

Lemma create_customer_twice (n e n' e' : string) :
  customer_store w !! str id = None ->
  result (Customer.create_customer id n e) w = inr true
  /\ result (Customer.create_customer id' n' e')
            (exec (Customer.create_customer id n e) w) = inr false
  /\ same_files (exec (Customer.create_customer id n e) w)
       (exec (Customer.create_customer id' n' e')
             (exec (Customer.create_customer id n e) w))
  /\ customer_store
       (exec (Customer.create_customer id' n' e')
             (exec (Customer.create_customer id n e) w))
     = <[str id := CustomerRec.mk n e]> (customer_store w).
Proof.
  intros E. unfold result, exec.
  rewrite (create_customer_run w), E. simpl.
  rewrite create_customer_run, customer_store_Doc, same_key, lookup_insert_eq. simpl.
  split; [done|]. split; [done|]. split; [apply same_files_say|done].
Qed.

Lemma create_reservation_twice (c h c' h' : pyval) (rec : HotelRec.t) :
  reservation_store w !! str id = None ->
  is_Some (customer_store w !! str c) ->
  hotel_store w !! str h = Some rec ->
  (0 < HotelRec.rooms rec)%Z ->
  result (Reservation.create_reservation id c h) w = inr true
  /\ result (Reservation.create_reservation id' c' h')
            (exec (Reservation.create_reservation id c h) w) = inr false
  /\ same_files (exec (Reservation.create_reservation id c h) w)
       (exec (Reservation.create_reservation id' c' h')
             (exec (Reservation.create_reservation id c h) w))
  /\ reservation_store
       (exec (Reservation.create_reservation id' c' h')
             (exec (Reservation.create_reservation id c h) w))
     = <[str id := ReservationRec.mk (str c) (str h)]> (reservation_store w).
Proof.
  intros Er Hc Eh Hpos.
  pose proof (create_reservation_success w id c h rec Er Hc Eh Hpos) as Hok.
  destruct (create_reservation_success_inv w id c h Hok) as (rec' & _ & _ & _ & _ & ->).
  split; [exact Hok|]. unfold result, exec.
  rewrite create_reservation_run, reservation_store_Doc, same_key, lookup_insert_eq.
  simpl. split; [done|]. split; [apply same_files_say|done].
Qed.

(** C9, as the code has it.  From a store that does not contain the
    identifier: the first [create_hotel] (or [create_customer]) succeeds, a
    second create under the same key fails and writes no file, and the store
    is the old one plus exactly the record of the first call.  For
    [create_reservation] the same holds when the first call can succeed at
    all, that is when its customer and hotel exist and the hotel has a
    positive room count. *)
Theorem create_twice_keeps_first :
  (forall n l r n' l' r',
     hotel_store w !! str id = None ->
     result (Hotel.create_hotel id n l r) w = inr true
     /\ result (Hotel.create_hotel id' n' l' r') (exec (Hotel.create_hotel id n l r) w)
        = inr false
     /\ same_files (exec (Hotel.create_hotel id n l r) w)
          (exec (Hotel.create_hotel id' n' l' r') (exec (Hotel.create_hotel id n l r) w))
     /\ hotel_store
          (exec (Hotel.create_hotel id' n' l' r') (exec (Hotel.create_hotel id n l r) w))
        = <[str id := HotelRec.mk n l r]> (hotel_store w))
  /\ (forall n e n' e',
     customer_store w !! str id = None ->
     result (Customer.create_customer id n e) w = inr true
     /\ result (Customer.create_customer id' n' e')
               (exec (Customer.create_customer id n e) w) = inr false
     /\ same_files (exec (Customer.create_customer id n e) w)
          (exec (Customer.create_customer id' n' e')
                (exec (Customer.create_customer id n e) w))
     /\ customer_store
          (exec (Customer.create_customer id' n' e')
                (exec (Customer.create_customer id n e) w))
        = <[str id := CustomerRec.mk n e]> (customer_store w))
  /\ (forall c h c' h' rec,
     reservation_store w !! str id = None ->
     is_Some (customer_store w !! str c) ->
     hotel_store w !! str h = Some rec ->
     (0 < HotelRec.rooms rec)%Z ->
     result (Reservation.create_reservation id c h) w = inr true
     /\ result (Reservation.create_reservation id' c' h')
               (exec (Reservation.create_reservation id c h) w) = inr false
     /\ same_files (exec (Reservation.create_reservation id c h) w)
          (exec (Reservation.create_reservation id' c' h')
                (exec (Reservation.create_reservation id c h) w))
     /\ reservation_store
          (exec (Reservation.create_reservation id' c' h')
                (exec (Reservation.create_reservation id c h) w))
        = <[str id := ReservationRec.mk (str c) (str h)]> (reservation_store w)).
Proof.
  split; [exact create_hotel_twice|].
  split; [exact create_customer_twice|exact create_reservation_twice].
Qed.
End CreateTwice.

Lemma create_twice_keeps_first_witness :
  result (Hotel.create_hotel (PyInt 1) "Marriott" "LA" 50)
         (exec (Hotel.create_hotel (PyInt 1) "Hilton" "NY" 100) fresh_world)
  = inr false
  /\ hotel_store
       (exec (Hotel.create_hotel (PyInt 1) "Marriott" "LA" 50)
             (exec (Hotel.create_hotel (PyInt 1) "Hilton" "NY" 100) fresh_world))
     = {["1" := HotelRec.mk "Hilton" "NY" 100]}
  /\ result (Customer.create_customer (PyStr "1") "Jane" "jane@test.com")
            (exec (Customer.create_customer (PyInt 1) "John Doe" "john@test.com")
                  fresh_world) = inr false
  /\ result (Reservation.create_reservation (PyInt 1) (PyInt 1) (PyInt 1))
            (exec (Reservation.create_reservation (PyInt 1) (PyInt 1) (PyInt 1))
                  hilton_world) = inr false.
Proof.
  destruct (create_twice_keeps_first fresh_world (PyInt 1) (PyInt 1) eq_refl)
    as (Hh & _ & _).
  destruct (create_twice_keeps_first fresh_world (PyInt 1) (PyStr "1") eq_refl)
    as (_ & Hc & _).
  destruct (create_twice_keeps_first hilton_world (PyInt 1) (PyInt 1) eq_refl)
    as (_ & _ & Hr).
  destruct (Hh "Hilton" "NY" 100%Z "Marriott" "LA" 50%Z eq_refl)
    as (_ & Hh2 & _ & Hh3).
  destruct (Hc "John Doe" "john@test.com" "Jane" "jane@test.com" eq_refl)
    as (_ & Hc2 & _).
  destruct (Hr (PyInt 1) (PyInt 1) (PyInt 1) (PyInt 1) (HotelRec.mk "Hilton" "NY" 10)
               eq_refl (ex_intro _ (CustomerRec.mk "John" "john@test.com") eq_refl)
               eq_refl eq_refl) as (_ & Hr2 & _).
  split; [exact Hh2|]. split; [exact Hh3|]. split; [exact Hc2|exact Hr2].
Defined.

(** C9, counterexample.  In a clean directory no reservation 1 exists, yet
    the first [create_reservation] fails (there is no customer 1), and so
    does the second; the reservation store stays empty. *)
Lemma create_reservation_first_call_can_fail :
  reservation_store fresh_world !! str (PyInt 1) = None
  /\ result (Reservation.create_reservation (PyInt 1) (PyInt 1) (PyInt 1)) fresh_world
     = inr false
  /\ result (Reservation.create_reservation (PyInt 1) (PyInt 1) (PyInt 1))
            (exec (Reservation.create_reservation (PyInt 1) (PyInt 1) (PyInt 1))
                  fresh_world) = inr false
  /\ reservation_store
       (exec (Reservation.create_reservation (PyInt 1) (PyInt 1) (PyInt 1))
          (exec (Reservation.create_reservation (PyInt 1) (PyInt 1) (PyInt 1))
                fresh_world)) = ∅.
Proof. repeat split. Qed.

(** * Further properties of the three classes *)

(** ** Closed forms of the remaining operations *)

Lemma delete_customer_run (w : world) (customer_id : pyval) :
  Customer.delete_customer customer_id w =
    match customer_store w !! str customer_id with
    | Some _ =>
        (inr true,
         World (hotels_json w) (Doc (delete (str customer_id) (customer_store w)))
               (reservations_json w)
               (stdout w ++ load_log Customer.FILE_NAME w))
    | None =>
        (inr false,
         say (load_log Customer.FILE_NAME w
                ++ ["Error: Cliente con ID " +:+ str customer_id
                    +:+ " no encontrado."]) w)
    end.
Proof.
  unfold Customer.delete_customer. run.
  change (store_of _) with (customer_store w). unfold delitem.
  destruct (customer_store w !! str customer_id) eqn:E.
  - by rewrite (py_in_true _ _ _ E).
  - by rewrite (py_in_false _ _ E).
Qed.

Lemma display_hotel_run (repr : HotelRec.t -> string) (w : world) (hotel_id : pyval) :
  Hotel.display_hotel repr hotel_id w =
    (inr (hotel_store w !! str hotel_id),
     say (load_log Hotel.FILE_NAME w
            ++ [match hotel_store w !! str hotel_id with
                | Some hotel => "Hotel " +:+ str hotel_id +:+ ": " +:+ repr hotel
                | None => "Error: Hotel con ID " +:+ str hotel_id +:+ " no encontrado."
                end]) w).
Proof.
  unfold Hotel.display_hotel. run.
  change (store_of _) with (hotel_store w).
  destruct (hotel_store w !! str hotel_id); by run.
Qed.

Lemma display_customer_run (repr : CustomerRec.t -> string) (w : world)
    (customer_id : pyval) :
  Customer.display_customer repr customer_id w =
    (inr (customer_store w !! str customer_id),
     say (load_log Customer.FILE_NAME w
            ++ [match customer_store w !! str customer_id with
                | Some customer =>
                    "Cliente " +:+ str customer_id +:+ ": " +:+ repr customer
                | None =>
                    "Error: Cliente con ID " +:+ str customer_id +:+ " no encontrado."
                end]) w).
Proof.
  unfold Customer.display_customer. run.
  change (store_of _) with (customer_store w).
  destruct (customer_store w !! str customer_id); by run.
Qed.

(** Rewrite a call of any operation into its closed form. *)
Ltac closed_form :=
  unfold result, exec;
  rewrite ?create_hotel_run, ?delete_hotel_run, ?modify_hotel_run,
    ?reserve_room_run, ?cancel_room_run, ?display_hotel_run,
    ?create_customer_run, ?delete_customer_run, ?modify_customer_run,
    ?display_customer_run, ?create_reservation_run, ?cancel_reservation_run;
  cbv zeta.

(** Split on the lookups and the room test a closed form branches on. *)
Ltac branches :=
  repeat match goal with
         | |- context [match ?d !! ?k with _ => _ end] => destruct (d !! k) eqn:?
         | |- context [bool_decide ?P] => destruct (bool_decide_reflect P)
         end.

(** ** A failed call writes nothing *)



(** ** Deleting records *)

(** X3.  [delete_hotel] and [delete_customer] return [True] exactly when the
    identifier is in the store.  A successful delete removes that record,
    keeps every other record, and leaves the other two files alone: in
    particular reservations that name the deleted hotel or customer stay. *)
Theorem delete_spec (w : world) (id : pyval) :
  (result (Hotel.delete_hotel id) w = inr true <-> is_Some (hotel_store w !! str id))
  /\ (is_Some (hotel_store w !! str id) ->
      hotel_store (exec (Hotel.delete_hotel id) w) = delete (str id) (hotel_store w)
      /\ hotel_store (exec (Hotel.delete_hotel id) w) !! str id = None
      /\ (forall k, k <> str id ->
            hotel_store (exec (Hotel.delete_hotel id) w) !! k = hotel_store w !! k)
      /\ customers_json (exec (Hotel.delete_hotel id) w) = customers_json w
      /\ reservations_json (exec (Hotel.delete_hotel id) w) = reservations_json w)
  /\ (result (Customer.delete_customer id) w = inr true
      <-> is_Some (customer_store w !! str id))
  /\ (is_Some (customer_store w !! str id) ->
      customer_store (exec (Customer.delete_customer id) w)
      = delete (str id) (customer_store w)
      /\ customer_store (exec (Customer.delete_customer id) w) !! str id = None
      /\ (forall k, k <> str id ->
            customer_store (exec (Customer.delete_customer id) w) !! k
            = customer_store w !! k)
      /\ hotels_json (exec (Customer.delete_customer id) w) = hotels_json w
      /\ reservations_json (exec (Customer.delete_customer id) w)
         = reservations_json w).
Proof.
  split; [|split; [|split]].
  - closed_form. destruct (hotel_store w !! str id); simpl.
    + split; eauto.
    + split; [discriminate|by intros [? ?]].
  - intros [h E]. closed_form. rewrite E. simpl. rewrite hotel_store_Doc.
    split; [done|]. split; [apply lookup_delete_eq|].
    split; [|done]. intros k Hk. by apply lookup_delete_ne.
  - closed_form. destruct (customer_store w !! str id); simpl.
    + split; eauto.
    + split; [discriminate|by intros [? ?]].
  - intros [h E]. closed_form. rewrite E. simpl. rewrite customer_store_Doc.
    split; [done|]. split; [apply lookup_delete_eq|].
    split; [|done]. intros k Hk. by apply lookup_delete_ne.
Qed.

Lemma delete_spec_witness :
  result (Hotel.delete_hotel (PyInt 1)) hilton_world = inr true
  /\ hotel_store (exec (Hotel.delete_hotel (PyInt 1)) hilton_world) !! "1" = None
  /\ result (Customer.delete_customer (PyInt 1)) hilton_world = inr true
  /\ customer_store (exec (Customer.delete_customer (PyInt 1)) hilton_world) !! "1"
     = None
  /\ ~ result (Hotel.delete_hotel (PyInt 99)) hilton_world = inr true.
Proof.
  destruct (delete_spec hilton_world (PyInt 1)) as ([_ Hh] & Hh' & [_ Hc] & Hc').
  destruct (delete_spec hilton_world (PyInt 99)) as ([Hno _] & _).
  assert (is_Some (hotel_store hilton_world !! str (PyInt 1))) as Hin
    by (exists (HotelRec.mk "Hilton" "NY" 10); reflexivity).
  assert (is_Some (customer_store hilton_world !! str (PyInt 1))) as Hcin
    by (exists (CustomerRec.mk "John" "john@test.com"); reflexivity).
  destruct (Hh' Hin) as (_ & Hgone & _). destruct (Hc' Hcin) as (_ & Hcgone & _).
  split; [exact (Hh Hin)|]. split; [exact Hgone|].
  split; [exact (Hc Hcin)|]. split; [exact Hcgone|].
  intros Hyes. destruct (Hno Hyes) as [x Hx]. discriminate Hx.
Defined.

(** X4.  Creating a record under an unused identifier and deleting it again
    gives back the store as it was, for hotels and for customers; both calls
    succeed. *)
Theorem create_then_delete_restores (w : world) (id : pyval) :
  (forall n l r, hotel_store w !! str id = None ->
     result (Hotel.create_hotel id n l r) w = inr true
     /\ result (Hotel.delete_hotel id) (exec (Hotel.create_hotel id n l r) w) = inr true
     /\ hotel_store (exec (Hotel.delete_hotel id) (exec (Hotel.create_hotel id n l r) w))
        = hotel_store w)
  /\ (forall n e, customer_store w !! str id = None ->
     result (Customer.create_customer id n e) w = inr true
     /\ result (Customer.delete_customer id) (exec (Customer.create_customer id n e) w)
        = inr true
     /\ customer_store
          (exec (Customer.delete_customer id) (exec (Customer.create_customer id n e) w))
        = customer_store w).
Proof.
  split.
  - intros n l r E. unfold result, exec. rewrite (create_hotel_run w), E. simpl.
    rewrite delete_hotel_run, hotel_store_Doc, lookup_insert_eq. simpl.
    rewrite hotel_store_Doc, delete_insert_eq. by rewrite delete_id.
  - intros n e E. unfold result, exec. rewrite (create_customer_run w), E. simpl.
    rewrite delete_customer_run, customer_store_Doc, lookup_insert_eq. simpl.
    rewrite customer_store_Doc, delete_insert_eq. by rewrite delete_id.
Qed.

Lemma create_then_delete_restores_witness :
  hotel_store hilton_world !! str (PyInt 2) = None
  /\ hotel_store
       (exec (Hotel.delete_hotel (PyInt 2))
             (exec (Hotel.create_hotel (PyInt 2) "Marriott" "LA" 50) hilton_world))
     = hotel_store hilton_world
  /\ customer_store
       (exec (Customer.delete_customer (PyInt 2))
             (exec (Customer.create_customer (PyInt 2) "Jane" "jane@test.com")
                   hilton_world))
     = customer_store hilton_world.
Proof.
  destruct (create_then_delete_restores hilton_world (PyInt 2)) as [Hh Hc].
  destruct (Hh "Marriott" "LA" 50%Z eq_refl) as (_ & _ & Hh3).
  destruct (Hc "Jane" "jane@test.com" eq_refl) as (_ & _ & Hc3).
  split; [reflexivity|]. split; [exact Hh3|exact Hc3].
Defined.

(** ** Reading records *)

(** X5.  [display_hotel] and [display_customer] only read: the three files
    are unchanged, the value returned is the stored record ([None] when the
    identifier is not in the store), and exactly one line is printed after
    whatever the load printed.  Right after a successful create, display
    returns the record that was created. *)
Theorem display_is_read_only (w : world) (id : pyval) :
  (forall repr,
     result (Hotel.display_hotel repr id) w = inr (hotel_store w !! str id)
     /\ same_files w (exec (Hotel.display_hotel repr id) w)
     /\ exists line, stdout (exec (Hotel.display_hotel repr id) w)
                     = (stdout w ++ load_log Hotel.FILE_NAME w ++ [line])%list)
  /\ (forall repr,
     result (Customer.display_customer repr id) w = inr (customer_store w !! str id)
     /\ same_files w (exec (Customer.display_customer repr id) w)
     /\ exists line, stdout (exec (Customer.display_customer repr id) w)
                     = (stdout w ++ load_log Customer.FILE_NAME w ++ [line])%list)
  /\ (forall repr n l r,
     result (Hotel.create_hotel id n l r) w = inr true ->
     result (Hotel.display_hotel repr id) (exec (Hotel.create_hotel id n l r) w)
     = inr (Some (HotelRec.mk n l r)))
  /\ (forall repr n e,
     result (Customer.create_customer id n e) w = inr true ->
     result (Customer.display_customer repr id)
            (exec (Customer.create_customer id n e) w)
     = inr (Some (CustomerRec.mk n e))).
Proof.
  split; [|split; [|split]].
  - intros repr. closed_form. simpl. split; [done|]. split; [done|]. eauto.
  - intros repr. closed_form. simpl. split; [done|]. split; [done|]. eauto.
  - intros repr n l r. unfold result, exec. rewrite (create_hotel_run w).
    destruct (hotel_store w !! str id); simpl; [discriminate|]. intros _.
    by rewrite display_hotel_run, hotel_store_Doc, lookup_insert_eq.
  - intros repr n e. unfold result, exec. rewrite (create_customer_run w).
    destruct (customer_store w !! str id); simpl; [discriminate|]. intros _.
    by rewrite display_customer_run, customer_store_Doc, lookup_insert_eq.
Qed.

Lemma display_is_read_only_witness :
  result (Hotel.display_hotel (fun _ => "{...}") (PyInt 1))
         (exec (Hotel.create_hotel (PyInt 1) "Hilton" "NY" 100) fresh_world)
  = inr (Some (HotelRec.mk "Hilton" "NY" 100))
  /\ result (Hotel.display_hotel (fun _ => "{...}") (PyInt 99)) fresh_world = inr None
  /\ result (Customer.display_customer (fun _ => "{...}") (PyInt 1))
            (exec (Customer.create_customer (PyInt 1) "John Doe" "john@test.com")
                  fresh_world)
     = inr (Some (CustomerRec.mk "John Doe" "john@test.com")).
Proof.
  destruct (display_is_read_only fresh_world (PyInt 1)) as (_ & _ & Hh & Hc).
  destruct (display_is_read_only fresh_world (PyInt 99)) as (Hnone & _).
  destruct (Hnone (fun _ => "{...}")) as (Hres & _).
  split; [exact (Hh _ _ _ _ eq_refl)|]. split; [exact Hres|].
  exact (Hc _ _ _ eq_refl).
Defined.

(** ** When a reservation is made, and what is written *)

(** X6.  [create_reservation] returns [True] exactly when the reservation
    identifier is unused, the customer is in the customer store and the
    hotel is in the hotel store with a positive room count.  It then stores
    under [str(reservation_id)] the record of the two stringified
    identifiers, keeps every other reservation, and does not write the
    customer file. *)
Theorem create_reservation_succeeds_iff (w : world) (r c h : pyval) :
  (result (Reservation.create_reservation r c h) w = inr true
   <-> reservation_store w !! str r = None
       /\ is_Some (customer_store w !! str c)
       /\ exists rec, hotel_store w !! str h = Some rec /\ (0 < HotelRec.rooms rec)%Z)
  /\ (result (Reservation.create_reservation r c h) w = inr true ->
      reservation_store (exec (Reservation.create_reservation r c h) w)
      = <[str r := ReservationRec.mk (str c) (str h)]> (reservation_store w)
      /\ customers_json (exec (Reservation.create_reservation r c h) w)
         = customers_json w).
Proof.
  split.
  - split.
    + intros Hok. destruct (create_reservation_success_inv w r c h Hok)
        as (rec & Er & Hc & Eh & Hpos & _). eauto 10.
    + intros (Er & Hc & rec & Eh & Hpos).
      by apply (create_reservation_success w r c h rec).
  - intros Hok. destruct (create_reservation_success_inv w r c h Hok)
      as (rec & _ & _ & _ & _ & ->). by rewrite reservation_store_Doc.
Qed.

Lemma create_reservation_succeeds_iff_witness :
  result (Reservation.create_reservation (PyInt 7) (PyStr "1") (PyInt 1)) hilton_world
  = inr true
  /\ reservation_store
       (exec (Reservation.create_reservation (PyInt 7) (PyStr "1") (PyInt 1))
             hilton_world) !! "7" = Some (ReservationRec.mk "1" "1")
  /\ ~ result (Reservation.create_reservation (PyInt 7) (PyInt 1) (PyInt 1)) full_world
       = inr true.
Proof.
  destruct (create_reservation_succeeds_iff hilton_world (PyInt 7) (PyStr "1") (PyInt 1))
    as [[_ Hif] Hwrite].
  destruct (create_reservation_succeeds_iff full_world (PyInt 7) (PyInt 1) (PyInt 1))
    as [[Honly _] _].
  assert (result (Reservation.create_reservation (PyInt 7) (PyStr "1") (PyInt 1))
                 hilton_world = inr true) as Hok.
  { apply Hif. split; [reflexivity|]. split.
    - exists (CustomerRec.mk "John" "john@test.com"). reflexivity.
    - exists (HotelRec.mk "Hilton" "NY" 10). split; reflexivity. }
  destruct (Hwrite Hok) as [Hstore _].
  split; [exact Hok|]. split.
  - rewrite Hstore. reflexivity.
  - intros Hyes. destruct (Honly Hyes) as (_ & _ & rec & Hrec & Hpos).
    injection Hrec as <-. discriminate Hpos.
Defined.

(** X7.  [cancel_reservation] returns [True] exactly when the reservation is
    in the store; after a successful cancel the record is gone, so a second
    cancel of the same identifier returns [False] and writes nothing. *)
Theorem cancel_reservation_once (w : world) (r : pyval) :
  (result (Reservation.cancel_reservation r) w = inr true
   <-> is_Some (reservation_store w !! str r))
  /\ (result (Reservation.cancel_reservation r) w = inr true ->
      reservation_store (exec (Reservation.cancel_reservation r) w)
      = delete (str r) (reservation_store w)
      /\ result (Reservation.cancel_reservation r)
                (exec (Reservation.cancel_reservation r) w) = inr false
      /\ same_files (exec (Reservation.cancel_reservation r) w)
           (exec (Reservation.cancel_reservation r)
                 (exec (Reservation.cancel_reservation r) w))).
Proof.
  split.
  - closed_form. destruct (reservation_store w !! str r) as [res|]; simpl.
    + destruct (hotel_store w !! _); simpl; split; eauto.
    + split; [discriminate|by intros [? ?]].
  - unfold result, exec. rewrite (cancel_reservation_run w). cbv zeta.
    destruct (reservation_store w !! str r) as [res|]; simpl; [|discriminate].
    destruct (hotel_store w !! _); simpl; intros _;
      rewrite cancel_reservation_run; cbv zeta;
      rewrite !reservation_store_Doc, lookup_delete_eq; simpl;
      (split; [done|]; split; [done|]; by repeat split).
Qed.

Lemma cancel_reservation_once_witness :
  result (Reservation.cancel_reservation (PyInt 1)) dangling_world = inr true
  /\ result (Reservation.cancel_reservation (PyInt 1))
            (exec (Reservation.cancel_reservation (PyInt 1)) dangling_world)
     = inr false.
Proof.
  destruct (cancel_reservation_once dangling_world (PyInt 1)) as [[_ Hif] Hafter].
  assert (result (Reservation.cancel_reservation (PyInt 1)) dangling_world = inr true)
    as Hok by (apply Hif; exists (ReservationRec.mk "1" "1"); reflexivity).
  destruct (Hafter Hok) as (_ & Hagain & _).
  split; [exact Hok|exact Hagain].
Defined.

(** ** Missing files and rejected text *)

(** X8.  When a store's file is missing, or is UTF-8 text that [json.load]
    rejects with [JSONDecodeError], the store counts as empty:
    [create_hotel] and [create_customer] succeed and the file becomes the
    document holding just the new record, so the rejected text is
    overwritten; every other hotel or customer operation returns [False] and
    [reserve_room] leaves the file as it is.  (A file that is not UTF-8 text
    is outside this statement: there the load raises, see
    [disk_load_data_undecodable].) *)
Theorem create_on_unreadable_store (w : world) (id : pyval) :
  (hotels_json w = Missing \/ (exists raw, hotels_json w = Corrupt raw) ->
     (forall n l r,
        result (Hotel.create_hotel id n l r) w = inr true
        /\ hotels_json (exec (Hotel.create_hotel id n l r) w)
           = Doc {[str id := HotelRec.mk n l r]})
     /\ result (Hotel.delete_hotel id) w = inr false
     /\ (forall n l r, result (Hotel.modify_hotel id n l r) w = inr false)
     /\ result (Hotel.reserve_room id) w = inr false
     /\ result (Hotel.cancel_room id) w = inr false
     /\ hotels_json (exec (Hotel.reserve_room id) w) = hotels_json w)
  /\ (customers_json w = Missing \/ (exists raw, customers_json w = Corrupt raw) ->
     (forall n e,
        result (Customer.create_customer id n e) w = inr true
        /\ customers_json (exec (Customer.create_customer id n e) w)
           = Doc {[str id := CustomerRec.mk n e]})
     /\ result (Customer.delete_customer id) w = inr false
     /\ (forall n e, result (Customer.modify_customer id n e) w = inr false)).
Proof.
  split.
  - intros Hbad.
    assert (hotel_store w = ∅) as Hempty
      by (unfold hotel_store; destruct Hbad as [->|[raw ->]]; reflexivity).
    repeat split; intros; closed_form; rewrite Hempty, lookup_empty; reflexivity.
  - intros Hbad.
    assert (customer_store w = ∅) as Hempty
      by (unfold customer_store; destruct Hbad as [->|[raw ->]]; reflexivity).
    repeat split; intros; closed_form; rewrite Hempty, lookup_empty; reflexivity.
Qed.

Lemma create_on_unreadable_store_witness :
  hotels_json
    (exec (Hotel.create_hotel (PyInt 1) "Hilton" "NY" 100)
          (World (Corrupt "{invalid_json: data") Missing Missing []))
  = Doc {["1" := HotelRec.mk "Hilton" "NY" 100]}
  /\ stdout
       (exec (Hotel.create_hotel (PyInt 1) "Hilton" "NY" 100)
             (World (Corrupt "{invalid_json: data") Missing Missing []))
     = ["Error: Datos JSON inválidos en hotels.json. Retornando vacío."]
  /\ result (Customer.create_customer (PyInt 1) "John" "john@test.com") fresh_world
     = inr true.
Proof.
  destruct (create_on_unreadable_store
              (World (Corrupt "{invalid_json: data") Missing Missing []) (PyInt 1))
    as [Hh _].
  destruct (create_on_unreadable_store fresh_world (PyInt 1)) as [_ Hc].
  destruct (Hh (or_intror (ex_intro _ "{invalid_json: data" eq_refl)))
    as (Hcreate & _).
  destruct (Hc (or_introl eq_refl)) as (Hccreate & _).
  split; [exact (proj2 (Hcreate "Hilton" "NY" 100%Z))|].
  split; [reflexivity|].
  exact (proj1 (Hccreate "John" "john@test.com")).
Defined.

(** ** Which files an operation can write *)

(** X9.  The hotel operations never write the customer or reservation file,
    the customer operations never write the hotel or reservation file, and
    the two reservation operations never write the customer file, whatever
    the outcome of the call. *)
Theorem registry_isolation (w : world) (a b c : pyval) :
  (forall n l r,
     customers_json (exec (Hotel.create_hotel a n l r) w) = customers_json w
     /\ reservations_json (exec (Hotel.create_hotel a n l r) w) = reservations_json w)
  /\ (customers_json (exec (Hotel.delete_hotel a) w) = customers_json w
      /\ reservations_json (exec (Hotel.delete_hotel a) w) = reservations_json w)
  /\ (forall n l r,
     customers_json (exec (Hotel.modify_hotel a n l r) w) = customers_json w
     /\ reservations_json (exec (Hotel.modify_hotel a n l r) w) = reservations_json w)
  /\ (customers_json (exec (Hotel.reserve_room a) w) = customers_json w
      /\ reservations_json (exec (Hotel.reserve_room a) w) = reservations_json w)
  /\ (customers_json (exec (Hotel.cancel_room a) w) = customers_json w
      /\ reservations_json (exec (Hotel.cancel_room a) w) = reservations_json w)
  /\ (forall n e,
     hotels_json (exec (Customer.create_customer a n e) w) = hotels_json w
     /\ reservations_json (exec (Customer.create_customer a n e) w)
        = reservations_json w)
  /\ (hotels_json (exec (Customer.delete_customer a) w) = hotels_json w
      /\ reservations_json (exec (Customer.delete_customer a) w) = reservations_json w)
  /\ (forall n e,
     hotels_json (exec (Customer.modify_customer a n e) w) = hotels_json w
     /\ reservations_json (exec (Customer.modify_customer a n e) w)
        = reservations_json w)
  /\ customers_json (exec (Reservation.create_reservation a b c) w) = customers_json w
  /\ customers_json (exec (Reservation.cancel_reservation a) w) = customers_json w.
Proof.
  repeat split; intros; closed_form; branches; reflexivity.
Qed.

(** ** Identifiers and keys *)

Lemma to_int_not_nil (n : Z) :
  Z.to_int n <> Decimal.Pos Decimal.Nil /\ Z.to_int n <> Decimal.Neg Decimal.Nil.
Proof.
  destruct n as [|p|p]; simpl; split; try discriminate;
    intros [= Hnil]; by apply (DecimalPos.Unsigned.to_uint_nonnil p).
Qed.

(** Different integers have different numerals. *)
Lemma str_int_inj (a b : Z) : str (PyInt a) = str (PyInt b) -> a = b.
Proof.
  simpl. intros Hstr. apply DecimalZ.to_int_inj.
  apply (f_equal NilZero.int_of_string) in Hstr.
  destruct (to_int_not_nil a), (to_int_not_nil b).
  rewrite !NilZero.isi in Hstr by done. by injection Hstr.
Qed.

(** X10.  Hotels created under two different integer identifiers do not
    interfere: from a store holding neither, both creates succeed in either
    order, each record is found under its own key, and the resulting store
    does not depend on the order of the two calls. *)
Theorem create_hotel_independent (w : world) (a b : Z)
    (na la : string) (ra : Z) (nb lb : string) (rb : Z) :
  a <> b ->
  hotel_store w !! str (PyInt a) = None ->
  hotel_store w !! str (PyInt b) = None ->
  result (Hotel.create_hotel (PyInt a) na la ra) w = inr true
  /\ result (Hotel.create_hotel (PyInt b) nb lb rb)
            (exec (Hotel.create_hotel (PyInt a) na la ra) w) = inr true
  /\ hotel_store (exec (Hotel.create_hotel (PyInt b) nb lb rb)
                    (exec (Hotel.create_hotel (PyInt a) na la ra) w))
       !! str (PyInt a) = Some (HotelRec.mk na la ra)
  /\ hotel_store (exec (Hotel.create_hotel (PyInt b) nb lb rb)
                    (exec (Hotel.create_hotel (PyInt a) na la ra) w))
       !! str (PyInt b) = Some (HotelRec.mk nb lb rb)
  /\ hotel_store (exec (Hotel.create_hotel (PyInt b) nb lb rb)
                    (exec (Hotel.create_hotel (PyInt a) na la ra) w))
     = hotel_store (exec (Hotel.create_hotel (PyInt a) na la ra)
                      (exec (Hotel.create_hotel (PyInt b) nb lb rb) w)).
Proof.
  intros Hab Ea Eb.
  assert (str (PyInt a) <> str (PyInt b)) as Hkeys
    by (intros Heq; by apply Hab, str_int_inj).
  unfold result, exec.
  rewrite !(create_hotel_run w), Ea, Eb. simpl.
  rewrite !create_hotel_run, !hotel_store_Doc.
  rewrite !lookup_insert_ne, Ea, Eb by done. simpl. rewrite !hotel_store_Doc.
  split; [done|]. split; [done|].
  split; [by rewrite lookup_insert_ne, lookup_insert_eq|].
  split; [by rewrite lookup_insert_eq|].
  by apply insert_insert_ne.
Qed.

Lemma create_hotel_independent_witness :
  hotel_store
    (exec (Hotel.create_hotel (PyInt 2) "Marriott" "LA" 50)
          (exec (Hotel.create_hotel (PyInt 1) "Hilton" "NY" 100) fresh_world))
  = hotel_store
      (exec (Hotel.create_hotel (PyInt 1) "Hilton" "NY" 100)
            (exec (Hotel.create_hotel (PyInt 2) "Marriott" "LA" 50) fresh_world)).
Proof.
  assert (1 <> 2)%Z as Hne by discriminate.
  exact (proj2 (proj2 (proj2 (proj2
    (create_hotel_independent fresh_world 1 2 "Hilton" "NY" 100 "Marriott" "LA" 50
       Hne eq_refl eq_refl))))).
Defined.

(** ** Adjusting the room count *)

Lemma repeat_call_S (n : nat) (m : M bool) (w w1 : world) (b : bool) :
  m w = (inr b, w1) ->
  repeat_call (S n) m w =
    match repeat_call n m w1 with
    | (inr bs, w2) => (inr (b && bs), w2)
    | (inl e, w2) => (inl e, w2)
    end.
Proof.
  intros Hm. simpl. rewrite bind_run, Hm, bind_run.
  by destruct (repeat_call n m w1) as [[e|bs] w2].
Qed.

(** One successful [reserve_room], as a step on the hotel file. *)
Lemma reserve_room_step (w : world) (id : pyval) (h : HotelRec.t) :
  hotel_store w !! str id = Some h -> (0 < HotelRec.rooms h)%Z ->
  Hotel.reserve_room id w =
    (inr true,
     World (Doc (<[str id := HotelRec.set_rooms (HotelRec.rooms h - 1)%Z h]>
                   (hotel_store w)))
           (customers_json w) (reservations_json w) (stdout w)).
Proof.
  intros E Hpos. rewrite reserve_room_run, E, bool_decide_eq_true_2 by done.
  rewrite (alter_lookup_insert _ _ _ _ E).
  destruct (hotel_file_of_lookup _ _ _ E) as [_ ->]. by rewrite app_nil_r.
Qed.

(** One [cancel_room] on a hotel that is in the store. *)
Lemma cancel_room_step (w : world) (id : pyval) (h : HotelRec.t) :
  hotel_store w !! str id = Some h ->
  Hotel.cancel_room id w =
    (inr true,
     World (Doc (<[str id := HotelRec.set_rooms (HotelRec.rooms h + 1)%Z h]>
                   (hotel_store w)))
           (customers_json w) (reservations_json w) (stdout w)).
Proof.
  intros E. rewrite cancel_room_run, E.
  rewrite (alter_lookup_insert _ _ _ _ E).
  destruct (hotel_file_of_lookup _ _ _ E) as [_ ->]. by rewrite app_nil_r.
Qed.

(** X11.  A hotel with [n] rooms serves exactly [n] calls of [reserve_room]:
    any [k] calls with [k <= rooms] all succeed and leave [rooms - k]
    (nothing else in the store changes), and once the count is 0 the next
    call fails. *)
Theorem reserve_room_exhausts (k : nat) (w : world) (id : pyval) (h : HotelRec.t) :
  hotel_store w !! str id = Some h ->
  (Z.of_nat k <= HotelRec.rooms h)%Z ->
  result (repeat_call k (Hotel.reserve_room id)) w = inr true
  /\ hotel_store (exec (repeat_call k (Hotel.reserve_room id)) w)
     = <[str id := HotelRec.set_rooms (HotelRec.rooms h - Z.of_nat k)%Z h]>
         (hotel_store w)
  /\ (HotelRec.rooms h = Z.of_nat k ->
      result (Hotel.reserve_room id)
             (exec (repeat_call k (Hotel.reserve_room id)) w) = inr false).
Proof.
  revert w h. induction k as [|k IH]; intros w h E Hk.
  - unfold result, exec. simpl. split; [done|]. split.
    + rewrite Z.sub_0_r. symmetry. apply insert_id. by destruct h.
    + intros Hzero. rewrite reserve_room_run, E.
      by rewrite bool_decide_eq_false_2 by lia.
  - assert (0 < HotelRec.rooms h)%Z as Hpos by lia.
    pose proof (reserve_room_step w id h E Hpos) as Hstep.
    unfold result, exec. rewrite (repeat_call_S _ _ _ _ _ Hstep).
    set (w1 := World _ _ _ _) in *.
    assert (hotel_store w1 !! str id
            = Some (HotelRec.set_rooms (HotelRec.rooms h - 1)%Z h)) as E1
      by (unfold w1; rewrite hotel_store_Doc; apply lookup_insert_eq).
    destruct (IH w1 _ E1) as (Hres & Hstore & Hnext); [simpl; lia|].
    unfold result, exec in Hres, Hstore, Hnext.
    destruct (repeat_call k (Hotel.reserve_room id) w1) as [[e|bs] w2];
      simpl in *; [discriminate|].
    injection Hres as ->. split; [done|]. split.
    + rewrite Hstore. unfold w1. rewrite hotel_store_Doc, insert_insert_eq.
      f_equal. unfold HotelRec.set_rooms. simpl. f_equal. lia.
    + intros Hall. apply Hnext. lia.
Qed.

Lemma reserve_room_exhausts_witness :
  result (repeat_call 10 (Hotel.reserve_room (PyInt 1))) hilton_world = inr true
  /\ result (Hotel.reserve_room (PyInt 1))
            (exec (repeat_call 10 (Hotel.reserve_room (PyInt 1))) hilton_world)
     = inr false.
Proof.
  assert (Z.of_nat 10 <= 10)%Z as Hle by (simpl; lia).
  destruct (reserve_room_exhausts 10 hilton_world (PyInt 1)
              (HotelRec.mk "Hilton" "NY" 10) eq_refl Hle) as (Hall & _ & Hnext).
  split; [exact Hall|exact (Hnext eq_refl)].
Defined.

(** X12.  [cancel_room] has no upper bound: on a hotel that is in the store,
    any number [k] of calls all succeed and leave [rooms + k], whatever the
    count was when the hotel was created. *)
Theorem cancel_room_unbounded (k : nat) (w : world) (id : pyval) (h : HotelRec.t) :
  hotel_store w !! str id = Some h ->
  result (repeat_call k (Hotel.cancel_room id)) w = inr true
  /\ hotel_store (exec (repeat_call k (Hotel.cancel_room id)) w)
     = <[str id := HotelRec.set_rooms (HotelRec.rooms h + Z.of_nat k)%Z h]>
         (hotel_store w).
Proof.
  revert w h. induction k as [|k IH]; intros w h E.
  - unfold result, exec. simpl. split; [done|].
    rewrite Z.add_0_r. symmetry. apply insert_id. by destruct h.
  - pose proof (cancel_room_step w id h E) as Hstep.
    unfold result, exec. rewrite (repeat_call_S _ _ _ _ _ Hstep).
    set (w1 := World _ _ _ _) in *.
    assert (hotel_store w1 !! str id
            = Some (HotelRec.set_rooms (HotelRec.rooms h + 1)%Z h)) as E1
      by (unfold w1; rewrite hotel_store_Doc; apply lookup_insert_eq).
    destruct (IH w1 _ E1) as (Hres & Hstore).
    unfold result, exec in Hres, Hstore.
    destruct (repeat_call k (Hotel.cancel_room id) w1) as [[e|bs] w2];
      simpl in *; [discriminate|].
    injection Hres as ->. split; [done|].
    rewrite Hstore. unfold w1. rewrite hotel_store_Doc, insert_insert_eq.
    f_equal. unfold HotelRec.set_rooms. simpl. f_equal. lia.
Qed.

Lemma cancel_room_unbounded_witness :
  result (repeat_call 3 (Hotel.cancel_room (PyInt 1))) hilton_world = inr true
  /\ room_count (exec (repeat_call 3 (Hotel.cancel_room (PyInt 1))) hilton_world) "1"
     = Some 13%Z.
Proof.
  destruct (cancel_room_unbounded 3 hilton_world (PyInt 1)
              (HotelRec.mk "Hilton" "NY" 10) eq_refl) as (Hall & Hstore).
  split; [exact Hall|]. unfold room_count. rewrite Hstore. reflexivity.
Defined.

(** X13.  [reserve_room] and [cancel_room] undo each other on the hotel
    store: a successful [reserve_room] followed by [cancel_room] gives the
    store back, and so does [cancel_room] followed by [reserve_room] on a
    hotel whose count is not negative. *)
Theorem reserve_cancel_room_round_trip (w : world) (id : pyval) :
  (result (Hotel.reserve_room id) w = inr true ->
     result (Hotel.cancel_room id) (exec (Hotel.reserve_room id) w) = inr true
     /\ hotel_store (exec (Hotel.cancel_room id) (exec (Hotel.reserve_room id) w))
        = hotel_store w)
  /\ (forall h, hotel_store w !! str id = Some h -> (0 <= HotelRec.rooms h)%Z ->
     result (Hotel.cancel_room id) w = inr true
     /\ result (Hotel.reserve_room id) (exec (Hotel.cancel_room id) w) = inr true
     /\ hotel_store (exec (Hotel.reserve_room id) (exec (Hotel.cancel_room id) w))
        = hotel_store w).
Proof.
  split.
  - intros Hok.
    assert (exists h, hotel_store w !! str id = Some h /\ (0 < HotelRec.rooms h)%Z)
      as (h & E & Hpos).
    { revert Hok. closed_form.
      destruct (hotel_store w !! str id) as [h|]; [|discriminate].
      case_bool_decide; [eauto|discriminate]. }
    unfold result, exec.
    rewrite (reserve_room_step w id h E Hpos). simpl.
    erewrite cancel_room_step
      by (rewrite hotel_store_Doc; apply lookup_insert_eq).
    simpl. rewrite !hotel_store_Doc, insert_insert_eq.
    split; [done|]. apply insert_id. rewrite E. f_equal.
    destruct h; unfold HotelRec.set_rooms; simpl; f_equal; lia.
  - intros h E Hnonneg. unfold result, exec.
    rewrite (cancel_room_step w id h E). simpl.
    erewrite reserve_room_step;
      [|rewrite hotel_store_Doc; apply lookup_insert_eq|simpl; lia].
    simpl. rewrite !hotel_store_Doc, insert_insert_eq.
    split; [done|]. split; [done|]. apply insert_id. rewrite E. f_equal.
    destruct h; unfold HotelRec.set_rooms; simpl; f_equal; lia.
Qed.

Lemma reserve_cancel_room_round_trip_witness :
  hotel_store (exec (Hotel.cancel_room (PyInt 1))
                 (exec (Hotel.reserve_room (PyInt 1)) hilton_world))
  = hotel_store hilton_world
  /\ hotel_store (exec (Hotel.reserve_room (PyInt 1))
                    (exec (Hotel.cancel_room (PyInt 1)) full_world))
     = hotel_store full_world.
Proof.
  destruct (reserve_cancel_room_round_trip hilton_world (PyInt 1)) as [Hrc _].
  destruct (reserve_cancel_room_round_trip full_world (PyInt 1)) as [_ Hcr].
  destruct (Hrc eq_refl) as [_ H1].
  assert (0 <= HotelRec.rooms (HotelRec.mk "Hilton" "NY" 0))%Z as Hz by (simpl; lia).
  destruct (Hcr (HotelRec.mk "Hilton" "NY" 0) eq_refl Hz) as (_ & _ & H2).
  split; [exact H1|exact H2].
Defined.

(** ** Rooms and reservations add up *)

Section Booked.
Import ReservationRec.
Variable key : string.

Lemma booked_insert_fresh (d : gmap string ReservationRec.t) (r : string)
    (x : ReservationRec.t) :
  d !! r = None ->
  size (filter (fun kv => hotel_id (snd kv) = key) (<[r := x]> d))
  = if decide (hotel_id x = key)
    then S (size (filter (fun kv => hotel_id (snd kv) = key) d))
    else size (filter (fun kv => hotel_id (snd kv) = key) d).
Proof.
  intros E. destruct (decide (hotel_id x = key)) as [Hx|Hx].
  - rewrite map_filter_insert_True by done.
    apply map_size_insert_None, map_lookup_filter_None_2. by left.
  - rewrite map_filter_insert_not' by (done || by rewrite E). done.
Qed.

Lemma booked_delete (d : gmap string ReservationRec.t) (r : string)
    (x : ReservationRec.t) :
  d !! r = Some x ->
  size (filter (fun kv => hotel_id (snd kv) = key) d)
  = if decide (hotel_id x = key)
    then S (size (filter (fun kv => hotel_id (snd kv) = key) (delete r d)))
    else size (filter (fun kv => hotel_id (snd kv) = key) (delete r d)).
Proof.
  intros E. rewrite <- (insert_delete_id d r x E) at 1.
  apply booked_insert_fresh, lookup_delete_eq.
Qed.
End Booked.

(** X14.  For every hotel in the store, the free rooms plus the number of
    reservation records naming that hotel stay the same across
    [create_reservation] and across [cancel_reservation], whether the call
    succeeds or fails: a booking moves one room from free to booked and a
    cancellation moves it back. *)
Theorem capacity_conserved (w : world) (r c h : pyval) (key : string) :
  capacity (exec (Reservation.create_reservation r c h) w) key = capacity w key
  /\ capacity (exec (Reservation.cancel_reservation r) w) key = capacity w key.
Proof.
  split.
  - closed_form.
    destruct (reservation_store w !! str r) eqn:Er; [done|].
    destruct (customer_store w !! str c); [|done].
    destruct (hotel_store w !! str h) as [rec|] eqn:Eh; [|done].
    case_bool_decide as Hpos; [|done]. simpl.
    unfold capacity, booked. rewrite hotel_store_Doc, reservation_store_Doc.
    rewrite (booked_insert_fresh key _ _ _ Er). simpl.
    destruct (decide (str h = key)) as [<-|Hne].
    + rewrite lookup_alter_eq, Eh. simpl. f_equal. lia.
    + by rewrite lookup_alter_ne.
  - closed_form.
    destruct (reservation_store w !! str r) as [res|] eqn:Er; [|done].
    unfold capacity, booked.
    rewrite (booked_delete key _ _ _ Er).
    destruct (hotel_store w !! ReservationRec.hotel_id res) as [rec|] eqn:Eh; simpl.
    + rewrite hotel_store_Doc, reservation_store_Doc.
      destruct (decide (ReservationRec.hotel_id res = key)) as [<-|Hne].
      * rewrite lookup_alter_eq, Eh. simpl. f_equal. lia.
      * by rewrite lookup_alter_ne.
    + rewrite reservation_store_Doc.
      change (hotel_store (World (hotels_json w) _ _ _)) with (hotel_store w).
      destruct (decide (ReservationRec.hotel_id res = key)) as [<-|Hne]; [|done].
      by rewrite Eh.
Qed.

(** ** What is printed *)

(** X15.  When no file is unparsable, each writing operation of the hotel
    and customer classes and [create_reservation] print nothing when they
    return [True] and exactly one line when they return [False].
    [cancel_reservation] prints one line when it returns [False]; when it
    returns [True] it prints nothing if the reservation's hotel is in the
    store and one line (the failed [cancel_room]) if it is not. *)
Theorem output_lines (w : world) (a b c : pyval) :
  no_corrupt_file w ->
  (forall n l r, quiet_or_one_line (Hotel.create_hotel a n l r) w)
  /\ quiet_or_one_line (Hotel.delete_hotel a) w
  /\ (forall n l r, quiet_or_one_line (Hotel.modify_hotel a n l r) w)
  /\ quiet_or_one_line (Hotel.reserve_room a) w
  /\ quiet_or_one_line (Hotel.cancel_room a) w
  /\ (forall n e, quiet_or_one_line (Customer.create_customer a n e) w)
  /\ quiet_or_one_line (Customer.delete_customer a) w
  /\ (forall n e, quiet_or_one_line (Customer.modify_customer a n e) w)
  /\ quiet_or_one_line (Reservation.create_reservation a b c) w
  /\ (result (Reservation.cancel_reservation a) w = inr false ->
      exists line, stdout (exec (Reservation.cancel_reservation a) w)
                   = (stdout w ++ [line])%list)
  /\ (forall res, reservation_store w !! str a = Some res ->
      stdout (exec (Reservation.cancel_reservation a) w)
      = (stdout w ++
         match hotel_store w !! ReservationRec.hotel_id res with
         | Some _ => []
         | None => ["Error: Hotel con ID " +:+ ReservationRec.hotel_id res
                    +:+ " no encontrado."]
         end)%list).
Proof.
  intros (Hh & Hc & Hr).
  assert (create_log w = []) as Hlog by (unfold create_log; by rewrite Hh, Hc, Hr).
  unfold quiet_or_one_line.
  repeat split; intros;
    try match goal with Hres : result _ _ = _ |- _ => revert Hres end;
    closed_form; rewrite ?Hh, ?Hc, ?Hr, ?Hlog; branches; simpl;
    rewrite ?app_nil_r; try discriminate; try (intros _); eauto;
    simplify_eq; congruence.
Qed.

Lemma output_lines_witness :
  no_corrupt_file dangling_world
  /\ stdout (exec (Reservation.cancel_reservation (PyInt 1)) dangling_world)
     = (stdout dangling_world ++ ["Error: Hotel con ID 1 no encontrado."])%list
  /\ quiet_or_one_line (Hotel.reserve_room (PyInt 1)) dangling_world.
Proof.
  assert (no_corrupt_file dangling_world) as Hclean by (repeat split).
  destruct (output_lines dangling_world (PyInt 1) (PyInt 1) (PyInt 1) Hclean)
    as (_ & _ & _ & Hreserve & _ & _ & _ & _ & _ & _ & Hcancel).
  split; [exact Hclean|]. split; [|exact Hreserve].
  exact (Hcancel (ReservationRec.mk "1" "1") eq_refl).
Defined.

Lemma capacity_conserved_witness :
  capacity hilton_world "1" = Some 10%Z
  /\ room_count (exec (Reservation.create_reservation (PyInt 1) (PyInt 1) (PyInt 1))
                      hilton_world) "1" = Some 9%Z
  /\ capacity (exec (Reservation.create_reservation (PyInt 1) (PyInt 1) (PyInt 1))
                    hilton_world) "1" = Some 10%Z
  /\ capacity (exec (Reservation.cancel_reservation (PyInt 1))
                 (exec (Reservation.create_reservation (PyInt 1) (PyInt 1) (PyInt 1))
                       hilton_world)) "1" = Some 10%Z.
Proof.
  assert (capacity hilton_world "1" = Some 10%Z) as Hstart by (vm_compute; reflexivity).
  destruct (capacity_conserved hilton_world (PyInt 1) (PyInt 1) (PyInt 1) "1")
    as [Hcreate _].
  destruct (capacity_conserved
              (exec (Reservation.create_reservation (PyInt 1) (PyInt 1) (PyInt 1))
                    hilton_world) (PyInt 1) (PyInt 1) (PyInt 1) "1")
    as [_ Hcancel].
  split; [exact Hstart|]. split; [reflexivity|].
  split; [by rewrite Hcreate|]. by rewrite Hcancel, Hcreate.
Defined.

(** ** Modifying twice *)

(** X16.  Two [modify] calls on a record that is in the store act like one
    call in which each field takes the value of the second call when the
    second call supplies it, and of the first call otherwise; the resulting
    worlds are equal.  In particular repeating a [modify] changes nothing
    further. *)
Theorem modify_composes (w : world) (id : pyval) :
  (forall n1 l1 r1 n2 l2 r2, is_Some (hotel_store w !! str id) ->
     exec (Hotel.modify_hotel id n2 l2 r2) (exec (Hotel.modify_hotel id n1 l1 r1) w)
     = exec (Hotel.modify_hotel id (later_wins n2 n1) (later_wins l2 l1)
                                (later_wins r2 r1)) w)
  /\ (forall n1 e1 n2 e2, is_Some (customer_store w !! str id) ->
     exec (Customer.modify_customer id n2 e2)
          (exec (Customer.modify_customer id n1 e1) w)
     = exec (Customer.modify_customer id (later_wins n2 n1) (later_wins e2 e1)) w).
Proof.
  split.
  - intros n1 l1 r1 n2 l2 r2 [h E]. unfold exec.
    rewrite (modify_hotel_present w id n1 l1 r1 h E). simpl.
    erewrite modify_hotel_present
      by (rewrite hotel_store_Doc; apply lookup_insert_eq).
    rewrite (modify_hotel_present w id _ _ _ h E). simpl.
    rewrite hotel_store_Doc, insert_insert_eq.
    by destruct n1, l1, r1, n2, l2, r2.
  - intros n1 e1 n2 e2 [c E]. unfold exec.
    rewrite (modify_customer_present w id n1 e1 c E). simpl.
    erewrite modify_customer_present
      by (rewrite customer_store_Doc; apply lookup_insert_eq).
    rewrite (modify_customer_present w id _ _ c E). simpl.
    rewrite customer_store_Doc, insert_insert_eq.
    by destruct n1, e1, n2, e2.
Qed.

Lemma modify_composes_witness :
  hotel_store
    (exec (Hotel.modify_hotel (PyInt 1) None (Some "Paris") (Some 150%Z))
          (exec (Hotel.modify_hotel (PyInt 1) (Some "Hilton Updated") None (Some 20%Z))
                hilton_world)) !! "1"
  = Some (HotelRec.mk "Hilton Updated" "Paris" 150).
Proof.
  destruct (modify_composes hilton_world (PyInt 1)) as [Hh _].
  rewrite (Hh (Some "Hilton Updated") None (Some 20%Z) None (Some "Paris") (Some 150%Z)
              (ex_intro _ (HotelRec.mk "Hilton" "NY" 10) eq_refl)).
  reflexivity.
Defined.
